(** * Origami: the forms value accessor and the polyfill utilities

    A shallow embedding of two source files of the repository,

      - [src/bin/lib/polyfill/util.ts]   (module [PolyfillUtil]), and
      - [src/forms/src/value-accessor.ts] (module [ValueAccessor]),

    followed by the properties proved about them.  JavaScript values,
    completions (normal return or thrown exception) and the few
    operators the two files rely on live in module [Js]. *)

From Stdlib Require Import ZArith Bool Ascii String List.
From stdpp Require Import base option strings list gmap.

Set Default Proof Using "Type".
#[local] Set Warnings "-register-all".
#[local] Open Scope string_scope.

(* ===================================================================== *)
(** * JavaScript values and completions                                   *)
(* ===================================================================== *)

Module Js.

(** What a [throw] carries.  [TypeError] is what the engine raises for
    a member access on [undefined]/[null] and for a call of something
    that is not a function; [ModuleNotFound] is what [require] raises;
    [Error] is [new Error(message)]. *)
Inductive Exn :=
| TypeError
| ModuleNotFound (path : string)
| Error (message : string).

(** How the evaluation of an expression or statement ends. *)
Inductive Completion (A : Type) :=
| Normal (a : A)
| Thrown (e : Exn).
Arguments Normal {A} a.
Arguments Thrown {A} e.

Definition isNormal {A} (c : Completion A) : bool :=
  match c with Normal _ => true | Thrown _ => false end.

(** Primitive values and object references.  Numbers are kept to the
    integers and [NaN], which is enough to exhibit every behaviour of
    [===] the accessor depends on; an object is known by its identity. *)
Inductive Value :=
| VUndefined
| VNull
| VBool (b : bool)
| VNum (n : Z)
| VNaN
| VStr (s : string)
| VObj (ref : nat).

(** [a === b]. *)
Definition strict_eq (a b : Value) : bool :=
  match a, b with
  | VUndefined, VUndefined => true
  | VNull, VNull => true
  | VBool x, VBool y => Bool.eqb x y
  | VNum x, VNum y => Z.eqb x y
  | VStr x, VStr y => String.eqb x y
  | VObj x, VObj y => Nat.eqb x y
  | _, _ => false
  end.

(** [Boolean(v)]. *)
Definition toBoolean (v : Value) : bool :=
  match v with
  | VUndefined | VNull | VNaN => false
  | VBool b => b
  | VNum n => negb (Z.eqb n 0)
  | VStr s => negb (String.eqb s "")
  | VObj _ => true
  end.

(** [typeof v !== 'undefined' && v !== null]. *)
Definition isConcrete (v : Value) : bool :=
  match v with
  | VUndefined | VNull => false
  | _ => true
  end.

(** [String.prototype.toLowerCase] on the ASCII range.  No character
    outside that range is mapped to a letter of ["es5"], so the
    comparison in [isEs5] is not affected by the restriction. *)
Definition lower_ascii (c : ascii) : ascii :=
  let n := N_of_ascii c in
  if (65 <=? n)%N && (n <=? 90)%N then ascii_of_N (n + 32) else c.

Fixpoint toLowerCase (s : string) : string :=
  match s with
  | EmptyString => EmptyString
  | String c rest => String (lower_ascii c) (toLowerCase rest)
  end.

(** [needle] occurs in [hay]. *)
Definition includes (hay needle : string) : bool :=
  match String.index 0 needle hay with
  | Some _ => true
  | None => false
  end.

End Js.

(* ===================================================================== *)
(** * [src/bin/lib/polyfill/util.ts]                                      *)
(* ===================================================================== *)

Module PolyfillUtil.
Import Js.

(** What [require] yields for a [.json] file: parsed JSON data. *)
Inductive Json :=
| JNull
| JBool (b : bool)
| JNum (n : Z)
| JStr (s : string)
| JArr (items : list Json)
| JObj (fields : gmap string Json).

(** [export type Asset = string | AssetGlob]. *)
Record AssetGlob := { glob : string; input : string; output : string }.

Inductive Asset :=
| AssetPath (p : string)
| AssetOfGlob (g : AssetGlob).

Record ArchitectOptions := {
  index : option string;
  tsConfig : string;
  assets : list Asset
}.

Record AngularJsonProjectArchitect := { options : ArchitectOptions }.

Inductive AngularJsonProjectArchitectType := build | test.

(** [architect: { [type in AngularJsonProjectArchitectType]?: ... }]. *)
Record Architects := {
  arch_build : option AngularJsonProjectArchitect;
  arch_test : option AngularJsonProjectArchitect
}.

Record AngularJsonProject := { root : string; architect : Architects }.

Record AngularCliJsonApp := {
  app_name : string;
  app_root : string;
  app_assets : list Asset;
  app_index : string;
  tsconfig : string
}.

(** [json.architect[type]]. *)
Definition architect_entry (a : Architects)
    (type : AngularJsonProjectArchitectType)
  : option AngularJsonProjectArchitect :=
  match type with
  | build => arch_build a
  | test => arch_test a
  end.

(** [o.name] where [o] is JSON data or [undefined] ([None]) and [name]
    is one of the two names [isEs5] reads, neither of which is found on
    a prototype: reading it off [undefined] or [null] throws, off any
    other non-object it is [undefined]. *)
Definition member (name : string) (o : option Json)
  : Completion (option Json) :=
  match o with
  | None | Some JNull => Thrown TypeError
  | Some (JObj fields) => Normal (fields !! name)
  | Some _ => Normal None
  end.

(** [t.toLowerCase()]: defined on strings only; on [undefined]/[null]
    the member access throws, on other JSON data the call of a missing
    or non-callable member throws. *)
Definition call_toLowerCase (t : option Json) : Completion string :=
  match t with
  | Some (JStr s) => Normal (toLowerCase s)
  | _ => Thrown TypeError
  end.

Definition bindC {A B} (c : Completion A) (k : A -> Completion B)
  : Completion B :=
  match c with
  | Normal a => k a
  | Thrown e => Thrown e
  end.

(** [return tsconfig.compilerOptions.target.toLowerCase() === 'es5'] *)
Definition isEs5 (tsconfig : Json) : Completion bool :=
  bindC (member "compilerOptions" (Some tsconfig)) (fun co =>
  bindC (member "target" co) (fun target =>
  bindC (call_toLowerCase target) (fun lowered =>
  Normal (String.eqb lowered "es5")))).

(** Truthiness of JSON data, or of [undefined] ([None]). *)
Definition truthy (j : option Json) : bool :=
  match j with
  | None | Some JNull => false
  | Some (JBool b) => b
  | Some (JNum n) => negb (Z.eqb n 0)
  | Some (JStr s) => negb (String.eqb s "")
  | Some (JArr _) | Some (JObj _) => true
  end.

(** [a && b]: [a] itself when it is falsy, otherwise what [b] evaluates
    to; [b] is not evaluated in the first case. *)
Definition and_then (a : option Json) (b : Completion (option Json))
  : Completion (option Json) :=
  if truthy a then b else Normal a.

(** [!!x] *)
Definition double_not (x : option Json) : option Json :=
  Some (JBool (truthy x)).

(** [Array.isArray(x)] *)
Definition isArray (x : option Json) : option Json :=
  match x with
  | Some (JArr _) => Some (JBool true)
  | _ => Some (JBool false)
  end.

(** [return json && !!json.projects;] for [json: any]: JSON data or
    [undefined].  Like the names [isEs5] reads, [projects], [architect]
    and [apps] are found on no prototype. *)
Definition isAngularJson (json : option Json) : Completion (option Json) :=
  and_then json
    (bindC (member "projects" json) (fun p => Normal (double_not p))).

(** [return json && !!json.architect;] *)
Definition isAngularJsonProject (json : option Json)
  : Completion (option Json) :=
  and_then json
    (bindC (member "architect" json) (fun p => Normal (double_not p))).

(** [return json && Array.isArray(json.apps);] *)
Definition isAngularCliJson (json : option Json) : Completion (option Json) :=
  and_then json
    (bindC (member "apps" json) (fun p => Normal (isArray p))).

Definition missing_config_message : string :=
  "Unable to find angular.json or .angular-cli.json in current directory".

Section Process.
(** The process the helpers run in: Node's [path.resolve] (which
    reads the current working directory) and the JSON files on disk,
    each by its absolute path.  A path is looked up as it is given:
    what Node's loader does with a path that names no file exactly, or
    with a file that is not JSON, is not part of this model, and
    nothing below relates the existence test to the loader. *)
Variable path_resolve : list string -> string.
Variable files : gmap string Json.

(** [promisify(fs.exists)]; awaited at once at both call sites. *)
Definition existsAsync (p : string) : bool :=
  bool_decide (is_Some (files !! p)).

(** [require(p)], with the path it was asked for: the first component
    of a [Loading] is the list of modules loaded, in order. *)
Definition Loading (A : Type) : Type := list string * Completion A.

Definition require (p : string) : Loading Json :=
  ([p], match files !! p with
        | Some j => Normal j
        | None => Thrown (ModuleNotFound p)
        end).

Definition bindL {A B} (m : Loading A) (k : A -> Loading B)
  : Loading B :=
  match m with
  | (ps, Normal a) => let '(qs, r) := k a in ((ps ++ qs)%list, r)
  | (ps, Thrown e) => (ps, Thrown e)
  end.

Definition liftL {A} (c : Completion A) : Loading A := ([], c).

(** An [async] function: [Normal] is the promise resolved, [Thrown]
    the promise rejected. *)
Definition getAngularJsonPath : Completion string :=
  let angularJsonPath := path_resolve ["./angular.json"] in
  let angularCliJsonPath := path_resolve ["./.angular-cli.json"] in
  if existsAsync angularJsonPath then Normal angularJsonPath
  else if existsAsync angularCliJsonPath then Normal angularCliJsonPath
  else Thrown (Error missing_config_message).

Definition isAngularJsonEs5 (json : AngularJsonProject)
    (type : AngularJsonProjectArchitectType) : Loading bool :=
  match architect_entry (architect json) type with
  | Some arch =>
      bindL (require (path_resolve [root json; tsConfig (options arch)]))
            (fun tsconfig => liftL (isEs5 tsconfig))
  | None => liftL (Normal false)
  end.

Definition isAngularCliJsonEs5 (json : AngularCliJsonApp) : Loading bool :=
  bindL (require (path_resolve [app_root json; tsconfig json]))
        (fun tsconfig => liftL (isEs5 tsconfig)).

End Process.

(** ** Sample data *)

Definition tsconfig_with_target (target : string) : Json :=
  JObj {[ "compilerOptions" := JObj {[ "target" := JStr target ]} ]}.

(** A [path.resolve] for a process whose working directory is [/app]
    and for the path shapes used below. *)
Definition sample_resolve (segments : list string) : string :=
  match segments with
  | ["./angular.json"] => "/app/angular.json"
  | ["./.angular-cli.json"] => "/app/.angular-cli.json"
  | [ "."; file ] => "/app/" ++ file
  | _ => "/app"
  end.

Definition cli_only_files (target : string) : gmap string Json :=
  {[ "/app/.angular-cli.json" :=
       JObj {[ "apps" := JArr [ JObj {[ "tsconfig" := JStr "tsconfig.json";
                                        "root" := JStr "." ]} ] ]};
     "/app/tsconfig.json" := tsconfig_with_target target ]}.

Definition both_files : gmap string Json :=
  {[ "/app/angular.json" := JObj {[ "projects" := JObj ∅ ]};
     "/app/.angular-cli.json" := JObj {[ "apps" := JArr [] ]} ]}.

Definition sample_app : AngularCliJsonApp :=
  {| app_name := "app"; app_root := "."; app_assets := [];
     app_index := "index.html"; tsconfig := "tsconfig.json" |}.

Definition project_without_test : AngularJsonProject :=
  {| root := ".";
     architect :=
       {| arch_build :=
            Some {| options := {| index := None;
                                  tsConfig := "tsconfig.json";
                                  assets := [] |} |};
          arch_test := None |} |}.

End PolyfillUtil.


(* ===================================================================== *)
(** * [src/forms/src/value-accessor.ts]                                   *)
(* ===================================================================== *)

Module ValueAccessor.
Import Js.

(** ** The custom element

    The accessor is handed [elementRef.nativeElement], an object it knows
    nothing about ([any]): a custom element whose properties are usually
    accessors.  An assignment [element[p] = v] runs the element's own
    setter, which may store the value, coerce it, ignore it or throw, and
    which may dispatch change events while it runs; the listeners of
    those events (the accessor's [onChangedEvent] among them) run before
    the assignment returns. *)

(** An event as the accessor sees it: [event.type], and a payload
    ([event.detail]) it never reads. *)
Record Event := { type : string; detail : Value }.

(** What one assignment [element[p] = v] does: the events dispatched
    while the setter runs, each with the state of the element at that
    moment; the state of the element once the setter is done; and the
    exception the setter threw, if any. *)
Record Outcome (E : Type) := {
  dispatched : list (E * Event);
  settled : E;
  raised : option Exn
}.
Arguments dispatched {E} _.
Arguments settled {E} _.
Arguments raised {E} _.

(** The three operations the accessor applies to the element, for a type
    [E] of element states: [property in element], [element[property]] and
    [element[property] = value]. *)
Class ElementLike (E : Type) := {
  hasProperty : string -> E -> bool;
  getProperty : string -> E -> Value;
  setProperty : string -> Value -> E -> Outcome E
}.

(** ** The accessor

    The fields of [OrigamiControlValueAccessor] the claims are about,
    the element behind [elementRef] (one shared mutable object, hence one
    component of the state), and two traces that make effects on the
    outside world observable: the arguments of the calls of [onChange]
    (the callback of the owning control) and the assignments made to the
    element, both oldest first. *)
Record Accessor (E : Type) := {
  nativeElement : E;
  isWritingValue : bool;
  useSelectableValueProp : option bool;
  forwarded : list Value;
  assigned : list (string * Value)
}.
Arguments nativeElement {E} _.
Arguments isWritingValue {E} _.
Arguments useSelectableValueProp {E} _.
Arguments forwarded {E} _.
Arguments assigned {E} _.

(** A method body: it runs on the accessor's state, may change it, and
    returns or throws; what it changed before throwing stays changed. *)
Definition M (E A : Type) : Type := Accessor E -> Completion A * Accessor E.

Definition ret {E A} (x : A) : M E A := fun a => (Normal x, a).

Definition bind {E A B} (m : M E A) (k : A -> M E B) : M E B :=
  fun a =>
    match m a with
    | (Normal x, a') => k x a'
    | (Thrown e, a') => (Thrown e, a')
    end.

Declare Scope method_scope.
Delimit Scope method_scope with method.
Notation "x <- m ;; k" := (bind m (fun x => k))
  (at level 100, m at next level, right associativity) : method_scope.
Notation "m ;; k" := (bind m (fun _ => k))
  (at level 100, right associativity) : method_scope.
#[local] Open Scope method_scope.

(** [try { m } catch (error) { }] *)
Definition tryCatch {E} (m : M E unit) : M E unit :=
  fun a =>
    match m a with
    | (Thrown _, a') => (Normal tt, a')
    | r => r
    end.

Section Fields.
Context {E : Type}.

Definition with_element (e : E) (a : Accessor E) : Accessor E :=
  {| nativeElement := e;
     isWritingValue := isWritingValue a;
     useSelectableValueProp := useSelectableValueProp a;
     forwarded := forwarded a;
     assigned := assigned a |}.

Definition with_writing (b : bool) (a : Accessor E) : Accessor E :=
  {| nativeElement := nativeElement a;
     isWritingValue := b;
     useSelectableValueProp := useSelectableValueProp a;
     forwarded := forwarded a;
     assigned := assigned a |}.

Definition with_decision (d : option bool) (a : Accessor E) : Accessor E :=
  {| nativeElement := nativeElement a;
     isWritingValue := isWritingValue a;
     useSelectableValueProp := d;
     forwarded := forwarded a;
     assigned := assigned a |}.

Definition with_forwarded (v : Value) (a : Accessor E) : Accessor E :=
  {| nativeElement := nativeElement a;
     isWritingValue := isWritingValue a;
     useSelectableValueProp := useSelectableValueProp a;
     forwarded := forwarded a ++ [v];
     assigned := assigned a |}.

Definition with_assigned (p : string) (v : Value) (a : Accessor E)
  : Accessor E :=
  {| nativeElement := nativeElement a;
     isWritingValue := isWritingValue a;
     useSelectableValueProp := useSelectableValueProp a;
     forwarded := forwarded a;
     assigned := assigned a ++ [(p, v)] |}.

(** [this.elementRef.nativeElement] *)
Definition element : M E E := fun a => (Normal (nativeElement a), a).

(** [this.isWritingValue] and [this.isWritingValue = b] *)
Definition writing : M E bool := fun a => (Normal (isWritingValue a), a).
Definition setWriting (b : bool) : M E unit :=
  fun a => (Normal tt, with_writing b a).

(** [this.useSelectableValueProp] and [this.useSelectableValueProp = b] *)
Definition decision : M E (option bool) :=
  fun a => (Normal (useSelectableValueProp a), a).
Definition setDecision (b : bool) : M E unit :=
  fun a => (Normal tt, with_decision (Some b) a).

(** [this.onChange(v)]: the control's callback takes the value. *)
Definition onChange (v : Value) : M E unit :=
  fun a => (Normal tt, with_forwarded v a).

End Fields.

Section Methods.
Context {E : Type} `{ElementLike E}.

(** [element[property]] *)
Definition read (property : string) : M E Value :=
  fun a => (Normal (getProperty property (nativeElement a)), a).

(** [!!element && property in element]; the element is an object. *)
Definition isPropertyDefined (el : E) (property : string) : bool :=
  true && hasProperty property el.

Definition isCheckedElement (el : E) : bool :=
  isPropertyDefined el "checked".

Definition isSelectable (el : E) : bool :=
  isPropertyDefined el "selected" || isPropertyDefined el "selectedItem".

Definition isMultiSelectable (el : E) : bool :=
  true &&
  strict_eq (getProperty "multi" el) (VBool true) &&
  (isPropertyDefined el "selectedValues" ||
   isPropertyDefined el "selectedValues").

Definition isValidatable (el : E) : bool :=
  isPropertyDefined el "invalid".

(** The two candidate names, as [getSelectableProperty] computes them. *)
Definition valueProp (el : E) : string :=
  if isMultiSelectable el then "selectedItems" else "selectedItem".
Definition indexProp (el : E) : string :=
  if isMultiSelectable el then "selectedValues" else "selected".

(** [this.useSelectableValueProp ? valueProp : indexProp] *)
Definition pick (d : option bool) (valueP indexP : string) : string :=
  match d with
  | Some true => valueP
  | _ => indexP
  end.

(** [getSelectableProperty(element, value)], for any way [assignTo] of
    carrying out the assignments [element[valueProp] = ...] of its third
    branch.  The inner block yields [false] where the source returns
    [undefined] from inside it. *)
Definition getSelectablePropertyVia (assignTo : string -> Value -> M E unit)
    (value : Value) : M E (option string) :=
  el <- element ;;
  let valueP := valueProp el in
  let indexP := indexProp el in
  d <- decision ;;
  proceed <-
    match d with
    | Some _ => ret true
    | None =>
        let hasValueProp := hasProperty valueP el in
        let hasIndexProp := hasProperty indexP el in
        if hasValueProp && negb hasIndexProp then
          setDecision true ;; ret true
        else if negb hasValueProp && hasIndexProp then
          setDecision false ;; ret true
        else if isConcrete value then
          previousValue <- read valueP ;;
          tryCatch (assignTo valueP value) ;;
          readBack <- read valueP ;;
          setDecision (strict_eq readBack value) ;;
          assignTo valueP previousValue ;;
          ret true
        else ret false
    end ;;
  if proceed : bool then
    d' <- decision ;;
    ret (Some (pick d' valueP indexP))
  else ret None.

(** [getSelectableProperty(element)]: the call without a value, as
    [onChangedEvent] makes it.  Its third branch is never entered, so no
    assignment is carried out and the way of assigning is immaterial. *)
Definition getSelectablePropertyOfElement : M E (option string) :=
  getSelectablePropertyVia (fun _ _ => ret tt) VUndefined.

(** [element[property]] where [property] is the result of
    [getSelectableProperty(element)!]: an [undefined] key reads the
    property named ["undefined"]. *)
Definition keyOf (property : option string) : string :=
  match property with
  | Some p => p
  | None => "undefined"
  end.

Definition isOneOf (property : option string) (p q : string) : bool :=
  match property with
  | Some r => String.eqb r p || String.eqb r q
  | None => false
  end.

(** The body of [onChangedEvent] under its guard. *)
Definition handleChange (event : Event) : M E unit :=
  el <- element ;;
  changed <-
    (if String.eqb (type event) "selected-items-changed"
        || String.eqb (type event) "selected-item-changed" then
       property <- getSelectablePropertyOfElement ;;
       ret (isOneOf property "selectedItems" "selectedItem")
     else if String.eqb (type event) "selected-values-changed"
        || String.eqb (type event) "selected-changed" then
       property <- getSelectablePropertyOfElement ;;
       ret (isOneOf property "selectedValues" "selected")
     else ret true) ;;
  if changed : bool then
    property <-
      (if isMultiSelectable el || isSelectable el then
         p <- getSelectablePropertyOfElement ;;
         ret (keyOf p)
       else if isCheckedElement el then ret "checked"
       else ret "value") ;;
    v <- read property ;;
    onChange v
  else ret tt.

Definition onChangedEvent (event : Event) : M E unit :=
  w <- writing ;;
  if negb w then handleChange event else ret tt.

(** The listeners run for the events one assignment dispatches: each
    sees the element as it is when the event is dispatched.  An exception
    escaping a listener is not passed on to the code that dispatched the
    event. *)
Definition deliver (events : list (E * Event)) (a : Accessor E)
  : Accessor E :=
  fold_left
    (fun acc '(snapshot, event) =>
       snd (onChangedEvent event (with_element snapshot acc)))
    events a.

(** [element[property] = value], as carried out on the real element. *)
Definition assign (property : string) (value : Value) : M E unit :=
  fun a =>
    let o := setProperty property value (nativeElement a) in
    let a' := deliver (dispatched o) (with_assigned property value a) in
    (match raised o with
     | Some e => Thrown e
     | None => Normal tt
     end,
     with_element (settled o) a').

Definition getSelectableProperty (value : Value) : M E (option string) :=
  getSelectablePropertyVia assign value.

(** [super.writeValue(value)]: the method of Angular's
    [DefaultValueAccessor], which is not part of this repository; it
    sets the element's [value] property to [value == null ? '' : value]
    through the renderer. *)
Definition DefaultValueAccessor_writeValue (value : Value) : M E unit :=
  assign "value" (if isConcrete value then value else VStr "").

Definition writeValue (value : Value) : M E unit :=
  setWriting true ;;
  el <- element ;;
  (if isMultiSelectable el || isSelectable el then
     property <- getSelectableProperty value ;;
     match property with
     | Some p => assign p value
     | None => ret tt
     end
   else if isCheckedElement el then
     assign "checked" (VBool (toBoolean value))
   else DefaultValueAccessor_writeValue value) ;;
  setWriting false.

(** ** The life of an accessor

    What happens to an accessor after it is created: the control writes
    values, and the element, changed by the user or by its own logic to
    some state [el], dispatches events. *)
Inductive Activity :=
| Write (value : Value)
| Notify (el : E) (event : Event).

Definition perform (a : Accessor E) (act : Activity) : Accessor E :=
  match act with
  | Write value => snd (writeValue value a)
  | Notify el event => snd (onChangedEvent event (with_element el a))
  end.

Definition lifetime (acts : list Activity) (a : Accessor E) : Accessor E :=
  fold_left perform acts a.

(** A freshly constructed accessor for an element. *)
Definition create (el : E) : Accessor E :=
  {| nativeElement := el;
     isWritingValue := false;
     useSelectableValueProp := None;
     forwarded := [];
     assigned := [] |}.

End Methods.

End ValueAccessor.


(* ===================================================================== *)
(** * Sample elements                                                     *)
(* ===================================================================== *)

Module Elements.
Import Js ValueAccessor.

(** What the setter of a property does with the value it is given: it
    stores a value (the one given or a coerced one), ignores the
    assignment, or throws. *)
Inductive Verdict :=
| Store (v : Value)
| Ignore
| Refuse (e : Exn).

(** A custom element: its properties with their current values, the
    behaviour of its setters, and the events it dispatches once a
    property has been stored. *)
Record Widget := {
  properties : gmap string Value;
  setter : string -> Value -> Verdict;
  announces : string -> list Event
}.

Definition store (p : string) (v : Value) (w : Widget) : Widget :=
  {| properties := <[p := v]> (properties w);
     setter := setter w;
     announces := announces w |}.

Definition widget_set (p : string) (v : Value) (w : Widget)
  : Outcome Widget :=
  match setter w p v with
  | Store v' =>
      let w' := store p v' w in
      {| dispatched := map (fun ev => (w', ev)) (announces w p);
         settled := w';
         raised := None |}
  | Ignore => {| dispatched := []; settled := w; raised := None |}
  | Refuse e => {| dispatched := []; settled := w; raised := Some e |}
  end.

#[export] Instance widget_element : ElementLike Widget := {
  hasProperty p w := bool_decide (is_Some (properties w !! p));
  getProperty p w := default VUndefined (properties w !! p);
  setProperty := widget_set
}.

(** Plain data properties: every assignment is stored as given. *)
Definition accept_all : string -> Value -> Verdict := fun _ v => Store v.

(** No event is dispatched. *)
Definition silent : string -> list Event := fun _ => [].

(** The [property-changed] events of a notifying element; the payload
    carried here is deliberately not the current value. *)
Definition notifying (p : string) : list Event :=
  if String.eqb p "value" then
    [{| type := "value-changed"; detail := VStr "payload" |}]
  else if String.eqb p "checked" then
    [{| type := "checked-changed"; detail := VStr "payload" |}]
  else if String.eqb p "selected" then
    [{| type := "selected-changed"; detail := VStr "payload" |}]
  else if String.eqb p "selectedItem" then
    [{| type := "selected-item-changed"; detail := VStr "payload" |}]
  else if String.eqb p "selectedValues" then
    [{| type := "selected-values-changed"; detail := VStr "payload" |}]
  else if String.eqb p "selectedItems" then
    [{| type := "selected-items-changed"; detail := VStr "payload" |}]
  else [].

(** A text input: a notifying [value]. *)
Definition text_input : Widget :=
  {| properties := {[ "value" := VStr "" ]};
     setter := accept_all;
     announces := notifying |}.

(** A list box with both [selected] and a writable [selectedItem]. *)
Definition list_box : Widget :=
  {| properties := {[ "selected" := VNum 0; "selectedItem" := VObj 7 ]};
     setter := accept_all;
     announces := notifying |}.

(** A selector whose [selectedItem] is read-only in the manner of a
    Polymer [readOnly] property: its setter does nothing. *)
Definition read_only_item (p : string) (v : Value) : Verdict :=
  if String.eqb p "selectedItem" then Ignore else Store v.

Definition selector : Widget :=
  {| properties := {[ "selected" := VNum 0; "selectedItem" := VObj 7 ]};
     setter := read_only_item;
     announces := notifying |}.

(** A list box whose [selectedItem] setter throws on anything that is
    not an object. *)
Definition objects_only (p : string) (v : Value) : Verdict :=
  if String.eqb p "selectedItem" then
    match v with
    | VObj _ => Store v
    | _ => Refuse TypeError
    end
  else Store v.

Definition typed_list_box : Widget :=
  {| properties := {[ "selected" := VNum 0; "selectedItem" := VObj 7 ]};
     setter := objects_only;
     announces := notifying |}.

(** An element whose [selectedItem] has a getter and no setter: in
    strict mode every assignment to it throws. *)
Definition getter_only_item (p : string) (v : Value) : Verdict :=
  if String.eqb p "selectedItem" then Refuse TypeError else Store v.

Definition frozen_item_box : Widget :=
  {| properties := {[ "selected" := VNum 0; "selectedItem" := VStr "x" ]};
     setter := getter_only_item;
     announces := silent |}.

(** An element whose [selectedItem] setter ignores [undefined] and
    [null], and which starts with nothing selected. *)
Definition ignores_absent (p : string) (v : Value) : Verdict :=
  if String.eqb p "selectedItem" && negb (isConcrete v) then Ignore
  else Store v.

Definition sticky_box : Widget :=
  {| properties := {[ "selected" := VUndefined;
                      "selectedItem" := VUndefined ]};
     setter := ignores_absent;
     announces := silent |}.

(** Elements exposing one of the two single-selection properties. *)
Definition item_only : Widget :=
  {| properties := {[ "selectedItem" := VUndefined ]};
     setter := accept_all;
     announces := notifying |}.

Definition index_only : Widget :=
  {| properties := {[ "selected" := VUndefined ]};
     setter := accept_all;
     announces := notifying |}.

(** A multi-selection element ([multi] is [true]) that exposes
    [selectedItems] and not [selectedValues]. *)
Definition multi_items_only : Widget :=
  {| properties := {[ "multi" := VBool true; "selectedItems" := VObj 1 ]};
     setter := accept_all;
     announces := notifying |}.

(** A multi-selection element exposing both properties. *)
Definition multi_list_box : Widget :=
  {| properties := {[ "multi" := VBool true;
                      "selectedValues" := VObj 1;
                      "selectedItems" := VObj 2 ]};
     setter := accept_all;
     announces := notifying |}.

(** A check box: a notifying [checked]. *)
Definition check_box : Widget :=
  {| properties := {[ "checked" := VBool false ]};
     setter := accept_all;
     announces := notifying |}.

End Elements.


(* ===================================================================== *)
(** * Vocabulary of the statements                                        *)
(* ===================================================================== *)

Module PolyfillUtilSpec.
Import Js PolyfillUtil.

(** The spellings of the legacy target, by letter case. *)
Definition es5_spellings : list string := ["es5"; "eS5"; "Es5"; "ES5"].

Definition is_es5_spelling (s : string) : bool :=
  match s with
  | String a (String b (String c EmptyString)) =>
      (Ascii.eqb a "e" || Ascii.eqb a "E")
      && (Ascii.eqb b "s" || Ascii.eqb b "S")
      && Ascii.eqb c "5"
  | _ => false
  end.

(** The target a loaded configuration declares, when it is an object
    whose [compilerOptions] is an object whose [target] is a string. *)
Definition string_target (tsconfig : Json) : option string :=
  match tsconfig with
  | JObj fields =>
      match fields !! "compilerOptions" with
      | Some (JObj options) =>
          match options !! "target" with
          | Some (JStr s) => Some s
          | _ => None
          end
      | _ => None
      end
  | _ => None
  end.

End PolyfillUtilSpec.

Module ValueAccessorSpec.
Import Js ValueAccessor.

Section Vocabulary.
Context {E : Type} `{ElementLike E}.

(** The completion of an assignment, from what the setter raised. *)
Definition completion_of (r : option Exn) : Completion unit :=
  match r with
  | Some e => Thrown e
  | None => Normal tt
  end.

(** The decision [getSelectableProperty] reaches without a value to
    probe with: the memoized one, or the one forced by the element
    exposing exactly one of the two candidates. *)
Definition settle (el : E) (d : option bool) : option bool :=
  match d with
  | Some b => Some b
  | None =>
      if hasProperty (valueProp el) el && negb (hasProperty (indexProp el) el)
      then Some true
      else if negb (hasProperty (valueProp el) el)
              && hasProperty (indexProp el) el
           then Some false
           else None
  end.

Definition chosen (el : E) (b : bool) : string :=
  if b then valueProp el else indexProp el.

(** Which of the two groups of selection events an event type is in. *)
Definition isItemEvent (event : Event) : bool :=
  String.eqb (type event) "selected-items-changed"
  || String.eqb (type event) "selected-item-changed".

Definition isIndexEvent (event : Event) : bool :=
  String.eqb (type event) "selected-values-changed"
  || String.eqb (type event) "selected-changed".

(** Whether [onChangedEvent] finds an event relevant, given the property
    the selection algorithm resolves to. *)
Definition relevant (event : Event) (resolved : option string) : bool :=
  if isItemEvent event then isOneOf resolved "selectedItems" "selectedItem"
  else if isIndexEvent event
       then isOneOf resolved "selectedValues" "selected"
       else true.

(** The property [onChangedEvent] reads the forwarded value from. *)
Definition source (el : E) (resolved : option string) : string :=
  if isMultiSelectable el || isSelectable el then keyOf resolved
  else if isCheckedElement el then "checked"
  else "value".

(** The state of the element seen by the last of a run of listeners. *)
Definition last_seen (events : list (E * Event)) (el : E) : E :=
  fold_left (fun _ '(snapshot, _) => snapshot) events el.

Definition stuck (r : option Exn) : bool :=
  match r with
  | Some _ => true
  | None => false
  end.

(** Where a write goes when no probe is needed: to the resolved
    selection property, to [checked], or to [value]. *)
Definition destination (el : E) (d : option bool) (value : Value)
  : option (string * Value) :=
  if isMultiSelectable el || isSelectable el then
    (fun b => (chosen el b, value)) <$> settle el d
  else if isCheckedElement el then Some ("checked", VBool (toBoolean value))
  else Some ("value", if isConcrete value then value else VStr "").

(** How many notifications a run of activities holds. *)
Fixpoint notifications (acts : list (@Activity E)) : nat :=
  match acts with
  | [] => 0
  | Write _ :: rest => notifications rest
  | Notify _ _ :: rest => S (notifications rest)
  end.

End Vocabulary.

End ValueAccessorSpec.

(* ===================================================================== *)
(** * Properties of the polyfill utilities                                *)
(* ===================================================================== *)

Module PolyfillUtilFacts.
Import Js PolyfillUtil PolyfillUtilSpec.

Ltac by_cases_on_ascii c :=
  destruct c as [[] [] [] [] [] [] [] []]; reflexivity.

Lemma lower_ascii_e (c : ascii) :
  Ascii.eqb (lower_ascii c) "e" = Ascii.eqb c "e" || Ascii.eqb c "E".
Proof. by_cases_on_ascii c. Qed.

Lemma lower_ascii_s (c : ascii) :
  Ascii.eqb (lower_ascii c) "s" = Ascii.eqb c "s" || Ascii.eqb c "S".
Proof. by_cases_on_ascii c. Qed.

Lemma lower_ascii_5 (c : ascii) :
  Ascii.eqb (lower_ascii c) "5" = Ascii.eqb c "5".
Proof. by_cases_on_ascii c. Qed.

Lemma string_eqb_cons (c d : ascii) (s t : string) :
  String.eqb (String c s) (String d t) = Ascii.eqb c d && String.eqb s t.
Proof. simpl. destruct (Ascii.eqb c d); reflexivity. Qed.

Lemma toLowerCase_es5 (s : string) :
  String.eqb (toLowerCase s) "es5" = is_es5_spelling s.
Proof.
  destruct s as [|a [|b [|c [|d s]]]]; try reflexivity.
  - cbn [toLowerCase]. rewrite !string_eqb_cons.
    destruct (Ascii.eqb (lower_ascii a) "e"); reflexivity.
  - cbn [toLowerCase]. rewrite !string_eqb_cons, lower_ascii_e.
    destruct (Ascii.eqb a "e" || Ascii.eqb a "E"),
             (Ascii.eqb (lower_ascii b) "s"); reflexivity.
  - cbn [toLowerCase is_es5_spelling].
    rewrite !string_eqb_cons, lower_ascii_e, lower_ascii_s, lower_ascii_5.
    simpl. rewrite andb_true_r, andb_assoc. reflexivity.
  - cbn [toLowerCase is_es5_spelling].
    rewrite !string_eqb_cons. simpl.
    rewrite !andb_false_r. reflexivity.
Qed.

Lemma is_es5_spelling_iff (s : string) :
  is_es5_spelling s = true <-> s ∈ es5_spellings.
Proof.
  unfold es5_spellings. split.
  - destruct s as [|a [|b [|c [|d s]]]]; try discriminate. simpl.
    rewrite !andb_true_iff, !orb_true_iff.
    intros [[Ha Hb] Hc]. apply Ascii.eqb_eq in Hc. subst c.
    destruct Ha as [Ha|Ha], Hb as [Hb|Hb];
      apply Ascii.eqb_eq in Ha; apply Ascii.eqb_eq in Hb; subst a b;
      set_solver.
  - rewrite !elem_of_cons, elem_of_nil.
    intros [->|[->|[->|[->|[]]]]]; reflexivity.
Qed.

Lemma isEs5_by_target (tsconfig : Json) :
  isEs5 tsconfig =
  match string_target tsconfig with
  | Some s => Normal (is_es5_spelling s)
  | None => Thrown TypeError
  end.
Proof.
  unfold isEs5, string_target.
  destruct tsconfig as [| | | | |fields]; try reflexivity.
  cbn [member bindC].
  destruct (fields !! "compilerOptions") as [[| | | | |options]|]; try reflexivity.
  cbn [member bindC].
  destruct (options !! "target") as [[| | | |? |?]|]; try reflexivity.
  cbn [call_toLowerCase bindC]. rewrite toLowerCase_es5. reflexivity.
Qed.

Section Process.
Variable path_resolve : list string -> string.
Variable files : gmap string Json.

(** C8.  [getAngularJsonPath] returns the resolved path of
    [angular.json] when that file exists (whether or not
    [.angular-cli.json] exists too), otherwise the resolved path of
    [.angular-cli.json] when that one exists, and otherwise throws an
    [Error] whose message contains both file names. *)
Theorem getAngularJsonPath_first_existing :
  let angularJsonPath := path_resolve ["./angular.json"] in
  let angularCliJsonPath := path_resolve ["./.angular-cli.json"] in
  getAngularJsonPath path_resolve files =
    (if existsAsync files angularJsonPath then Normal angularJsonPath
     else if existsAsync files angularCliJsonPath
          then Normal angularCliJsonPath
          else Thrown (Error missing_config_message))
  /\ (is_Some (files !! angularJsonPath) ->
      getAngularJsonPath path_resolve files = Normal angularJsonPath)
  /\ (files !! angularJsonPath = None ->
      is_Some (files !! angularCliJsonPath) ->
      getAngularJsonPath path_resolve files = Normal angularCliJsonPath)
  /\ (files !! angularJsonPath = None ->
      files !! angularCliJsonPath = None ->
      exists message,
        getAngularJsonPath path_resolve files = Thrown (Error message)
        /\ includes message "angular.json" = true
        /\ includes message ".angular-cli.json" = true).
Proof.
  intros aj cj. unfold getAngularJsonPath, existsAsync.
  fold aj cj. repeat split.
  - intros Ha. rewrite bool_decide_eq_true_2 by exact Ha. reflexivity.
  - intros Ha Hc.
    rewrite bool_decide_eq_false_2 by (rewrite Ha; apply is_Some_None).
    rewrite bool_decide_eq_true_2 by exact Hc. reflexivity.
  - intros Ha Hc. exists missing_config_message.
    rewrite !bool_decide_eq_false_2
      by (first [rewrite Ha | rewrite Hc]; apply is_Some_None).
    repeat split; reflexivity.
Qed.

(** C9.  The es5 queries answer [true] exactly for the targets that are
    ["es5"] up to letter case: [isEs5] on a configuration with a string
    target, and [isAngularJsonEs5] and [isAngularCliJsonEs5] on the
    configuration they load.  [isAngularJsonEs5] answers [false] and
    loads no file when the project has no architect entry of the type
    asked for. *)
Theorem es5_queries_ignore_case :
  (forall tsconfig target,
      string_target tsconfig = Some target ->
      isEs5 tsconfig = Normal (is_es5_spelling target))
  /\ (forall target, is_es5_spelling target = true <-> target ∈ es5_spellings)
  /\ (is_es5_spelling "ES5" = true /\ is_es5_spelling "es5" = true
      /\ is_es5_spelling "Es5" = true /\ is_es5_spelling "ES2015" = false)
  /\ (forall json tsconfig target,
      files !! path_resolve [app_root json; PolyfillUtil.tsconfig json]
        = Some tsconfig ->
      string_target tsconfig = Some target ->
      isAngularCliJsonEs5 path_resolve files json =
        ([path_resolve [app_root json; PolyfillUtil.tsconfig json]],
         Normal (is_es5_spelling target)))
  /\ (forall json type arch tsconfig target,
      architect_entry (architect json) type = Some arch ->
      files !! path_resolve [root json; tsConfig (options arch)]
        = Some tsconfig ->
      string_target tsconfig = Some target ->
      isAngularJsonEs5 path_resolve files json type =
        ([path_resolve [root json; tsConfig (options arch)]],
         Normal (is_es5_spelling target)))
  /\ (forall json type,
      architect_entry (architect json) type = None ->
      isAngularJsonEs5 path_resolve files json type = ([], Normal false)).
Proof.
  split; [|split; [|split; [|split; [|split]]]].
  - intros t s Hs. rewrite isEs5_by_target, Hs. reflexivity.
  - exact is_es5_spelling_iff.
  - repeat split; reflexivity.
  - intros json t s Hf Hs. unfold isAngularCliJsonEs5, require.
    rewrite Hf. cbn [bindL liftL]. rewrite isEs5_by_target, Hs. reflexivity.
  - intros json ty arch t s Ha Hf Hs. unfold isAngularJsonEs5, require.
    rewrite Ha, Hf. cbn [bindL liftL]. rewrite isEs5_by_target, Hs.
    reflexivity.
  - intros json ty Ha. unfold isAngularJsonEs5. rewrite Ha. reflexivity.
Qed.

(** C10.  [isEs5] returns a boolean exactly when the configuration is
    an object with a [compilerOptions] object holding a string [target];
    on every other configuration it throws a [TypeError], and the two
    callers pass that exception on after loading the file. *)
Theorem isEs5_partial :
  (forall tsconfig,
      (exists b, isEs5 tsconfig = Normal b)
      <-> is_Some (string_target tsconfig))
  /\ (forall tsconfig,
      string_target tsconfig = None -> isEs5 tsconfig = Thrown TypeError)
  /\ (forall json tsconfig,
      files !! path_resolve [app_root json; PolyfillUtil.tsconfig json]
        = Some tsconfig ->
      string_target tsconfig = None ->
      snd (isAngularCliJsonEs5 path_resolve files json) = Thrown TypeError)
  /\ (forall json type arch tsconfig,
      architect_entry (architect json) type = Some arch ->
      files !! path_resolve [root json; tsConfig (options arch)]
        = Some tsconfig ->
      string_target tsconfig = None ->
      snd (isAngularJsonEs5 path_resolve files json type) = Thrown TypeError).
Proof.
  split; [|split; [|split]].
  - intros t. rewrite isEs5_by_target.
    destruct (string_target t) as [s|]; split.
    + intros _. eauto.
    + intros _. eauto.
    + intros [b Hb]. discriminate Hb.
    + intros [s Hs]. discriminate Hs.
  - intros t Ht. rewrite isEs5_by_target, Ht. reflexivity.
  - intros json t Hf Ht. unfold isAngularCliJsonEs5, require.
    rewrite Hf. cbn [bindL liftL snd]. rewrite isEs5_by_target, Ht.
    reflexivity.
  - intros json ty arch t Ha Hf Ht. unfold isAngularJsonEs5, require.
    rewrite Ha, Hf. cbn [bindL liftL snd]. rewrite isEs5_by_target, Ht.
    reflexivity.
Qed.

End Process.

End PolyfillUtilFacts.

(* ===================================================================== *)
(** * Properties of the value accessor                                    *)
(* ===================================================================== *)

Module ValueAccessorFacts.
Import Js ValueAccessor ValueAccessorSpec.

#[local] Open Scope list_scope.
#[local] Open Scope method_scope.

Section Facts.
Context {E : Type} `{ElementLike E}.

Implicit Types (a : Accessor E) (el : E) (v value : Value) (p : string).

Lemma with_decision_same a :
  with_decision (useSelectableValueProp a) a = a.
Proof. destruct a; reflexivity. Qed.

Lemma with_element_same a : with_element (nativeElement a) a = a.
Proof. destruct a; reflexivity. Qed.

Lemma pick_chosen el b :
  pick (Some b) (valueProp el) (indexProp el) = chosen el b.
Proof. destruct b; reflexivity. Qed.

(** Without a concrete value, or when the decision is memoized or forced
    by the element exposing one candidate only, no assignment is made,
    whatever [assignTo] is: the call only reads the element and may
    memoize a decision. *)
Lemma getSelectablePropertyVia_static assignTo value a :
  isConcrete value = false
  \/ is_Some (settle (nativeElement a) (useSelectableValueProp a)) ->
  getSelectablePropertyVia assignTo value a =
    (Normal (chosen (nativeElement a)
               <$> settle (nativeElement a) (useSelectableValueProp a)),
     with_decision (settle (nativeElement a) (useSelectableValueProp a)) a).
Proof.
  intros Hv.
  unfold getSelectablePropertyVia, settle, bind, element, decision,
    setDecision, ret.
  destruct (useSelectableValueProp a) as [b|] eqn:Hd.
  - rewrite Hd. rewrite <- Hd at 3. rewrite with_decision_same.
    rewrite pick_chosen. reflexivity.
  - unfold settle in Hv.
    destruct (hasProperty (valueProp (nativeElement a)) (nativeElement a)),
             (hasProperty (indexProp (nativeElement a)) (nativeElement a));
      cbn [andb negb] in *; cbn [fmap option_fmap option_map];
      try reflexivity.
    all: destruct Hv as [Hv|[? Hv]]; [|discriminate Hv].
    all: rewrite Hv, <- Hd, with_decision_same; reflexivity.
Qed.

(** A call without a concrete value is the call [onChangedEvent] makes. *)
Lemma getSelectableProperty_no_value value a :
  isConcrete value = false ->
  getSelectableProperty value a = getSelectablePropertyOfElement a.
Proof.
  intros Hv. unfold getSelectableProperty, getSelectablePropertyOfElement.
  rewrite !getSelectablePropertyVia_static by (left; first [exact Hv|reflexivity]).
  reflexivity.
Qed.

Lemma settle_idempotent el d : settle el (settle el d) = settle el d.
Proof.
  destruct d as [b|]; [reflexivity|]. unfold settle.
  destruct (hasProperty (valueProp el) el), (hasProperty (indexProp el) el);
    reflexivity.
Qed.

Lemma settle_decided el b : settle el (Some b) = Some b.
Proof. reflexivity. Qed.

(** An element that is neither selectable nor multi-selectable exposes
    neither candidate. *)
Lemma settle_not_selectable el d :
  isMultiSelectable el || isSelectable el = false -> settle el d = d.
Proof.
  intros Hsel. apply orb_false_elim in Hsel as [Hm Hs].
  destruct d as [b|]; [reflexivity|].
  unfold settle, valueProp, indexProp. rewrite Hm.
  unfold isSelectable, isPropertyDefined in Hs. cbn [andb] in Hs.
  apply orb_false_elim in Hs as [-> ->]. reflexivity.
Qed.

Lemma getSelectablePropertyOfElement_eq a :
  getSelectablePropertyOfElement a =
    (Normal (chosen (nativeElement a)
               <$> settle (nativeElement a) (useSelectableValueProp a)),
     with_decision (settle (nativeElement a) (useSelectableValueProp a)) a).
Proof. apply getSelectablePropertyVia_static. left. reflexivity. Qed.

Lemma handleChange_eq event a :
  let el := nativeElement a in
  let d := settle el (useSelectableValueProp a) in
  let resolved := chosen el <$> d in
  handleChange event a =
    (Normal tt,
     if relevant event resolved
     then with_forwarded (getProperty (source el resolved) el)
            (with_decision d a)
     else with_decision d a).
Proof.
  intros el d resolved.
  unfold handleChange, relevant, source.
  fold (isItemEvent event). fold (isIndexEvent event).
  unfold bind at 1. unfold element at 1. fold el.
  assert (Hagain : forall a', nativeElement a' = el ->
            useSelectableValueProp a' = d ->
            getSelectablePropertyOfElement a' = (Normal resolved, a')).
  { intros a' He Hd. rewrite getSelectablePropertyOfElement_eq, He, Hd.
    unfold d. rewrite settle_idempotent. fold d. fold resolved.
    rewrite <- Hd, with_decision_same. reflexivity. }
  assert (Hfirst : getSelectablePropertyOfElement a
                   = (Normal resolved, with_decision d a))
    by apply getSelectablePropertyOfElement_eq.
  destruct (isItemEvent event).
  - unfold bind, ret, read, onChange. rewrite Hfirst.
    destruct (isOneOf resolved _ _); [|reflexivity].
    destruct (isMultiSelectable el || isSelectable el) eqn:Hsel.
    + rewrite Hagain by reflexivity. reflexivity.
    + destruct (isCheckedElement el); reflexivity.
  - destruct (isIndexEvent event).
    + unfold bind, ret, read, onChange. rewrite Hfirst.
      destruct (isOneOf resolved _ _); [|reflexivity].
      destruct (isMultiSelectable el || isSelectable el) eqn:Hsel.
      * rewrite Hagain by reflexivity. reflexivity.
      * destruct (isCheckedElement el); reflexivity.
    + unfold bind, ret, read, onChange.
      destruct (isMultiSelectable el || isSelectable el) eqn:Hsel.
      * rewrite Hfirst. reflexivity.
      * assert (Hd : d = useSelectableValueProp a)
          by (apply settle_not_selectable; exact Hsel).
        rewrite Hd, with_decision_same.
        destruct (isCheckedElement el); reflexivity.
Qed.

Lemma onChangedEvent_eq event a :
  onChangedEvent event a =
    if isWritingValue a then (Normal tt, a) else handleChange event a.
Proof.
  unfold onChangedEvent, bind, writing, ret.
  destruct (isWritingValue a); reflexivity.
Qed.

(** While a write is in progress the listener does nothing at all. *)
Lemma onChangedEvent_while_writing event a :
  isWritingValue a = true -> onChangedEvent event a = (Normal tt, a).
Proof. intros Hw. rewrite onChangedEvent_eq, Hw. reflexivity. Qed.


Lemma deliver_while_writing events a :
  isWritingValue a = true ->
  deliver events a = with_element (last_seen events (nativeElement a)) a.
Proof.
  revert a. induction events as [|[snapshot event] events IH]; intros a Hw.
  - symmetry. apply with_element_same.
  - cbn [deliver last_seen fold_left].
    rewrite onChangedEvent_while_writing by exact Hw. cbn [snd].
    fold (deliver events (with_element snapshot a)).
    rewrite IH by exact Hw.
    destruct a; reflexivity.
Qed.

(** An assignment made while the guard is up: the listeners it triggers
    leave the accessor as it is. *)
Lemma assign_while_writing p v a :
  isWritingValue a = true ->
  assign p v a =
    (completion_of (raised (setProperty p v (nativeElement a))),
     with_element (settled (setProperty p v (nativeElement a)))
       (with_assigned p v a)).
Proof.
  intros Hw. unfold assign.
  rewrite deliver_while_writing by exact Hw.
  destruct a; reflexivity.
Qed.

Lemma settle_none_inv el :
  settle el None = None ->
  hasProperty (valueProp el) el && negb (hasProperty (indexProp el) el)
    = false
  /\ negb (hasProperty (valueProp el) el) && hasProperty (indexProp el) el
    = false.
Proof.
  unfold settle.
  destruct (hasProperty (valueProp el) el), (hasProperty (indexProp el) el);
    cbn; intros Hs; try discriminate Hs; split; reflexivity.
Qed.

Lemma getSelectableProperty_decided value a b :
  useSelectableValueProp a = Some b ->
  getSelectableProperty value a = (Normal (Some (chosen (nativeElement a) b)), a).
Proof.
  intros Hd.
  unfold getSelectableProperty, getSelectablePropertyVia, bind, element,
    decision, ret.
  rewrite Hd. cbv beta iota zeta. rewrite Hd. destruct b; reflexivity.
Qed.

(** The probe, as [writeValue] runs it. *)
Lemma getSelectableProperty_probe value a :
  let el := nativeElement a in
  let previous := getProperty (valueProp el) el in
  let o1 := setProperty (valueProp el) value el in
  let b := strict_eq (getProperty (valueProp el) (settled o1)) value in
  let o2 := setProperty (valueProp el) previous (settled o1) in
  isWritingValue a = true ->
  useSelectableValueProp a = None ->
  settle el None = None ->
  isConcrete value = true ->
  getSelectableProperty value a =
    (match raised o2 with
     | Some e => Thrown e
     | None => Normal (Some (chosen el b))
     end,
     with_element (settled o2)
       (with_assigned (valueProp el) previous
          (with_decision (Some b)
             (with_element (settled o1)
                (with_assigned (valueProp el) value a))))).
Proof.
  intros el previous o1 b o2 Hw Hd Hs Hv.
  apply settle_none_inv in Hs as [Hs1 Hs2]. fold el in Hs1, Hs2.
  unfold getSelectableProperty, getSelectablePropertyVia.
  unfold bind at 1. unfold element at 1. fold el.
  unfold bind at 1. unfold decision at 1. rewrite Hd.
  rewrite Hs1, Hs2, Hv.
  unfold bind at 1. unfold bind at 1. unfold read at 1. fold el. fold previous.
  unfold bind at 1. unfold tryCatch.
  rewrite assign_while_writing by exact Hw. fold el. fold o1.
  destruct (raised o1); cbn [completion_of].
  all: unfold bind, read, setDecision, ret; cbn [nativeElement with_element].
  all: rewrite assign_while_writing by exact Hw.
  all: cbn [nativeElement with_element with_decision with_assigned].
  all: fold b; fold o2.
  all: destruct (raised o2); cbn [completion_of]; try reflexivity.
  all: cbn [decision useSelectableValueProp]; rewrite pick_chosen;
       reflexivity.
Qed.


Lemma writeValue_direct value a p v' :
  let el := nativeElement a in
  let o := setProperty p v' el in
  destination el (useSelectableValueProp a) value = Some (p, v') ->
  writeValue value a =
    (completion_of (raised o),
     with_writing (stuck (raised o))
       (with_element (settled o)
          (with_assigned p v'
             (with_decision (settle el (useSelectableValueProp a)) a)))).
Proof.
  intros el o Hdest. unfold destination in Hdest. fold el in Hdest.
  unfold writeValue.
  unfold bind at 1. unfold setWriting at 1.
  unfold bind at 1. unfold element at 1.
  cbn [nativeElement with_writing]. fold el.
  destruct (isMultiSelectable el || isSelectable el) eqn:Hsel.
  - destruct (settle el (useSelectableValueProp a)) as [b|] eqn:Hs;
      [|discriminate Hdest].
    injection Hdest as <- <-.
    unfold bind at 1. unfold bind at 1. unfold getSelectableProperty.
    rewrite getSelectablePropertyVia_static
      by (right; cbn [nativeElement useSelectableValueProp with_writing];
          fold el; rewrite Hs; eauto).
    cbn [nativeElement useSelectableValueProp with_writing]. fold el.
    rewrite Hs. cbn [fmap option_fmap option_map].
    rewrite assign_while_writing by reflexivity.
    cbn [nativeElement with_decision with_writing]. fold el. fold o.
    destruct (raised o); cbn [completion_of stuck setWriting];
      destruct a; reflexivity.
  - assert (Hs : settle el (useSelectableValueProp a)
                 = useSelectableValueProp a)
      by (apply settle_not_selectable; exact Hsel).
    rewrite Hs, with_decision_same.
    unfold bind at 1.
    destruct (isCheckedElement el); injection Hdest as <- <-;
      unfold DefaultValueAccessor_writeValue;
      rewrite assign_while_writing by reflexivity;
      cbn [nativeElement with_writing]; fold el; fold o;
      destruct (raised o); cbn [completion_of stuck setWriting];
      destruct a; reflexivity.
Qed.

(** An element classified as selectable exposes at least one of the two
    candidates. *)
Lemma selectable_exposes el :
  isMultiSelectable el || isSelectable el = true ->
  hasProperty (valueProp el) el || hasProperty (indexProp el) el = true.
Proof.
  unfold valueProp, indexProp.
  destruct (isMultiSelectable el) eqn:Hm.
  - intros _. unfold isMultiSelectable, isPropertyDefined in Hm.
    cbn [andb] in Hm. apply andb_true_iff in Hm as [_ Hm].
    rewrite orb_diag in Hm. rewrite Hm. apply orb_true_r.
  - cbn [orb]. unfold isSelectable, isPropertyDefined. cbn [andb].
    rewrite orb_comm. trivial.
Qed.

Lemma writeValue_dropped value a :
  let el := nativeElement a in
  isMultiSelectable el || isSelectable el = true ->
  settle el (useSelectableValueProp a) = None ->
  isConcrete value = false ->
  writeValue value a = (Normal tt, with_writing false a).
Proof.
  intros el Hsel Hs Hv.
  unfold writeValue.
  unfold bind at 1. unfold setWriting at 1.
  unfold bind at 1. unfold element at 1.
  cbn [nativeElement with_writing]. fold el. rewrite Hsel.
  unfold bind at 1. unfold bind at 1. unfold getSelectableProperty.
  rewrite getSelectablePropertyVia_static by (left; exact Hv).
  cbn [nativeElement useSelectableValueProp with_writing]. fold el.
  rewrite Hs. cbn [fmap option_fmap option_map ret setWriting].
  assert (Hd : useSelectableValueProp a = None)
    by (destruct (useSelectableValueProp a); [discriminate Hs|reflexivity]).
  destruct a; cbn in *; subst; reflexivity.
Qed.

Lemma writeValue_probing value a :
  let el := nativeElement a in
  let previous := getProperty (valueProp el) el in
  let o1 := setProperty (valueProp el) value el in
  let b := strict_eq (getProperty (valueProp el) (settled o1)) value in
  let o2 := setProperty (valueProp el) previous (settled o1) in
  let o3 := setProperty (chosen el b) value (settled o2) in
  let probed :=
    with_element (settled o2)
      (with_assigned (valueProp el) previous
         (with_decision (Some b)
            (with_element (settled o1)
               (with_assigned (valueProp el) value
                  (with_writing true a))))) in
  isMultiSelectable el || isSelectable el = true ->
  settle el (useSelectableValueProp a) = None ->
  isConcrete value = true ->
  writeValue value a =
    match raised o2 with
    | Some e => (Thrown e, probed)
    | None =>
        (completion_of (raised o3),
         with_writing (stuck (raised o3))
           (with_element (settled o3)
              (with_assigned (chosen el b) value probed)))
    end.
Proof.
  intros el previous o1 b o2 o3 probed Hsel Hs Hv.
  assert (Hd : useSelectableValueProp a = None)
    by (destruct (useSelectableValueProp a); [discriminate Hs|reflexivity]).
  rewrite Hd in Hs.
  unfold writeValue.
  unfold bind at 1. unfold setWriting at 1.
  unfold bind at 1. unfold element at 1.
  cbn [nativeElement with_writing]. fold el. rewrite Hsel.
  unfold bind at 1. unfold bind at 1.
  rewrite getSelectableProperty_probe; try assumption; try reflexivity.
  cbn [nativeElement with_writing]. fold el previous o1 b o2. fold probed.
  destruct (raised o2); [reflexivity|].
  rewrite assign_while_writing by reflexivity.
  unfold probed at 1. cbn [nativeElement with_element]. fold o3.
  destruct (raised o3); cbn [completion_of stuck setWriting];
    destruct a; reflexivity.
Qed.


Lemma exposing_both_selectable el :
  hasProperty (valueProp el) el = true ->
  hasProperty (indexProp el) el = true ->
  isMultiSelectable el || isSelectable el = true
  /\ settle el None = None.
Proof.
  intros Hv Hi. split.
  - destruct (isMultiSelectable el) eqn:Hm; [reflexivity|].
    unfold valueProp in Hv. rewrite Hm in Hv.
    unfold isSelectable, isPropertyDefined. cbn [andb orb].
    rewrite Hv. apply orb_true_r.
  - unfold settle. rewrite Hv, Hi. reflexivity.
Qed.

Lemma exposing_one_selectable el :
  xorb (hasProperty (valueProp el) el) (hasProperty (indexProp el) el) = true ->
  isMultiSelectable el || isSelectable el = true
  /\ settle el None = Some (hasProperty (valueProp el) el).
Proof.
  intros Hx. split.
  - destruct (isMultiSelectable el) eqn:Hm; [reflexivity|].
    unfold valueProp, indexProp in Hx. rewrite Hm in Hx.
    unfold isSelectable, isPropertyDefined. cbn [andb orb].
    destruct (hasProperty "selectedItem" el), (hasProperty "selected" el);
      try reflexivity; discriminate Hx.
  - unfold settle.
    destruct (hasProperty (valueProp el) el), (hasProperty (indexProp el) el);
      try reflexivity; discriminate Hx.
Qed.

Lemma destination_decided el b value :
  exists p v', destination el (Some b) value = Some (p, v').
Proof.
  unfold destination.
  destruct (isMultiSelectable el || isSelectable el).
  - rewrite settle_decided. cbn. eauto.
  - destruct (isCheckedElement el); eauto.
Qed.

Lemma destination_none el d value :
  destination el d value = None ->
  isMultiSelectable el || isSelectable el = true /\ settle el d = None.
Proof.
  unfold destination.
  destruct (isMultiSelectable el || isSelectable el).
  - destruct (settle el d); [discriminate|]. auto.
  - destruct (isCheckedElement el); discriminate.
Qed.

(** Once made, the decision is never changed: not by a write ... *)
Lemma writeValue_keeps_decision value a b :
  useSelectableValueProp a = Some b ->
  useSelectableValueProp (snd (writeValue value a)) = Some b.
Proof.
  intros Hd.
  destruct (destination_decided (nativeElement a) b value) as (p & v' & Hp).
  rewrite <- Hd in Hp.
  rewrite (writeValue_direct value a p v' Hp). cbn. rewrite Hd. reflexivity.
Qed.

(** ... and not by a notification. *)
Lemma onChangedEvent_keeps_decision event a b :
  useSelectableValueProp a = Some b ->
  useSelectableValueProp (snd (onChangedEvent event a)) = Some b.
Proof.
  intros Hd. rewrite onChangedEvent_eq.
  destruct (isWritingValue a); [exact Hd|].
  rewrite handleChange_eq. cbn [snd].
  destruct (relevant _ _); cbn; rewrite Hd; reflexivity.
Qed.

Lemma lifetime_keeps_decision acts a b :
  useSelectableValueProp a = Some b ->
  useSelectableValueProp (lifetime acts a) = Some b.
Proof.
  revert a. induction acts as [|act acts IH]; intros a Hd; [exact Hd|].
  cbn [lifetime fold_left]. apply IH.
  destruct act as [value|el event]; cbn [perform].
  - apply writeValue_keeps_decision. exact Hd.
  - apply onChangedEvent_keeps_decision. exact Hd.
Qed.

(** A write on a selectable element whose decision is made assigns the
    decided property, and nothing else. *)
Lemma writeValue_decided_trace value a b :
  useSelectableValueProp a = Some b ->
  isMultiSelectable (nativeElement a) || isSelectable (nativeElement a)
    = true ->
  assigned (snd (writeValue value a))
    = assigned a ++ [(chosen (nativeElement a) b, value)].
Proof.
  intros Hd Hsel.
  assert (Hp : destination (nativeElement a) (useSelectableValueProp a) value
               = Some (chosen (nativeElement a) b, value)).
  { unfold destination. rewrite Hsel, Hd. reflexivity. }
  rewrite (writeValue_direct value a _ _ Hp). reflexivity.
Qed.

Lemma chosen_same_class el el' b :
  isMultiSelectable el' = isMultiSelectable el -> chosen el' b = chosen el b.
Proof.
  intros Hm. unfold chosen, valueProp, indexProp. rewrite Hm. reflexivity.
Qed.

Lemma writeValue_forwards_nothing value a :
  forwarded (snd (writeValue value a)) = forwarded a.
Proof.
  destruct (destination (nativeElement a) (useSelectableValueProp a) value)
    as [[p v']|] eqn:Hp.
  - rewrite (writeValue_direct value a p v' Hp). reflexivity.
  - apply destination_none in Hp as [Hsel Hs].
    destruct (isConcrete value) eqn:Hv.
    + rewrite (writeValue_probing value a Hsel Hs Hv).
      destruct (raised _); reflexivity.
    + rewrite (writeValue_dropped value a Hsel Hs Hv). reflexivity.
Qed.

Lemma writeValue_returns_unguarded value a :
  isNormal (fst (writeValue value a)) = true ->
  isWritingValue (snd (writeValue value a)) = false.
Proof.
  destruct (destination (nativeElement a) (useSelectableValueProp a) value)
    as [[p v']|] eqn:Hp.
  - rewrite (writeValue_direct value a p v' Hp). cbn [fst snd].
    destruct (raised _); [discriminate|reflexivity].
  - apply destination_none in Hp as [Hsel Hs].
    destruct (isConcrete value) eqn:Hv.
    + rewrite (writeValue_probing value a Hsel Hs Hv).
      destruct (raised _); [discriminate|]. cbn [fst snd].
      destruct (raised _); [discriminate|reflexivity].
    + rewrite (writeValue_dropped value a Hsel Hs Hv). reflexivity.
Qed.


Lemma assign_outcome p v a :
  fst (assign p v a) = completion_of (raised (setProperty p v (nativeElement a)))
  /\ nativeElement (snd (assign p v a))
     = settled (setProperty p v (nativeElement a)).
Proof. unfold assign, completion_of. split; reflexivity. Qed.

Lemma isOneOf_true resolved p q :
  isOneOf resolved p q = true -> resolved = Some p \/ resolved = Some q.
Proof.
  destruct resolved as [r|]; [|discriminate]. cbn [isOneOf].
  intros Hr. apply orb_true_iff in Hr as [Hr|Hr];
    apply String.eqb_eq in Hr; subst; auto.
Qed.

Lemma index_event_not_item_event event :
  isIndexEvent event = true -> isItemEvent event = false.
Proof.
  unfold isIndexEvent, isItemEvent. intros Hi.
  apply orb_true_iff in Hi as [Hi|Hi]; apply String.eqb_eq in Hi;
    rewrite Hi; reflexivity.
Qed.

(** C6.  On an element exposing both candidates, with no decision made,
    [writeValue(undefined)] and [writeValue(null)] return normally
    without assigning any property: the element, the trace of
    assignments and the undecided state are what they were. *)
Theorem writeValue_without_value_is_dropped a value :
  let el := nativeElement a in
  useSelectableValueProp a = None ->
  hasProperty (valueProp el) el = true ->
  hasProperty (indexProp el) el = true ->
  value = VUndefined \/ value = VNull ->
  writeValue value a = (Normal tt, with_writing false a)
  /\ assigned (snd (writeValue value a)) = assigned a
  /\ nativeElement (snd (writeValue value a)) = nativeElement a
  /\ useSelectableValueProp (snd (writeValue value a)) = None
  /\ forwarded (snd (writeValue value a)) = forwarded a.
Proof.
  intros el Hd Hv Hi Habsent.
  destruct (exposing_both_selectable el Hv Hi) as [Hsel Hs].
  rewrite <- Hd in Hs at 1.
  assert (Hc : isConcrete value = false)
    by (destruct Habsent; subst; reflexivity).
  rewrite (writeValue_dropped value a Hsel Hs Hc).
  cbn [snd with_writing assigned nativeElement useSelectableValueProp
       forwarded].
  auto.
Qed.

(** C7.  On an element exposing exactly one of the two candidates, the
    first call of the selection algorithm (with or without a value)
    returns the exposed one and memoizes the decision without assigning
    anything; the decision then survives everything that happens to
    the accessor, and every later write on the element, as long as it is
    classified the same way, assigns that one property and no other. *)
Theorem single_candidate_is_chosen_for_good a value :
  let el := nativeElement a in
  let b := hasProperty (valueProp el) el in
  useSelectableValueProp a = None ->
  xorb (hasProperty (valueProp el) el) (hasProperty (indexProp el) el)
    = true ->
  getSelectableProperty value a
    = (Normal (Some (chosen el b)), with_decision (Some b) a)
  /\ getSelectablePropertyOfElement a
     = (Normal (Some (chosen el b)), with_decision (Some b) a)
  /\ assigned (snd (writeValue value a))
     = assigned a ++ [(chosen el b, value)]
  /\ useSelectableValueProp (snd (writeValue value a)) = Some b
  /\ forall a0 acts value',
       useSelectableValueProp a0 = Some b ->
       let a' := lifetime acts a0 in
       useSelectableValueProp a' = Some b
       /\ (isMultiSelectable (nativeElement a') = isMultiSelectable el ->
           isMultiSelectable (nativeElement a')
             || isSelectable (nativeElement a') = true ->
           assigned (snd (writeValue value' a'))
             = assigned a' ++ [(chosen el b, value')]).
Proof.
  intros el b Hd Hx.
  destruct (exposing_one_selectable el Hx) as [Hsel Hs]. fold b in Hs.
  rewrite <- Hd in Hs.
  assert (Hstatic : forall assignTo v,
            getSelectablePropertyVia assignTo v a
            = (Normal (Some (chosen el b)), with_decision (Some b) a)).
  { intros assignTo v. rewrite getSelectablePropertyVia_static.
    - fold el. rewrite Hs. reflexivity.
    - right. fold el. rewrite Hs. eauto. }
  assert (Hp : destination el (useSelectableValueProp a) value
               = Some (chosen el b, value)).
  { unfold destination. rewrite Hsel, Hs. reflexivity. }
  split; [apply Hstatic|]. split; [apply Hstatic|].
  split; [|split].
  - rewrite (writeValue_direct value a _ _ Hp). reflexivity.
  - rewrite (writeValue_direct value a _ _ Hp). cbn. fold el. exact Hs.
  - intros a0 acts value' Hd0 a'.
    assert (Hd' : useSelectableValueProp a' = Some b)
      by (apply lifetime_keeps_decision; exact Hd0).
    split; [exact Hd'|]. intros Hclass Hsel'.
    rewrite (writeValue_decided_trace value' a' b Hd' Hsel').
    rewrite (chosen_same_class el (nativeElement a') b Hclass). reflexivity.
Qed.

(** The probe as it is written.  On an element exposing both
    candidates, with no decision made, a write of a concrete value
    assigns the value to the item-property (an exception thrown by that
    assignment is caught) and decides by the read-back alone: the
    item-property when the read-back is [===] to the value, the
    index-property otherwise.  When the re-assignment of the previous
    value is accepted, that write then assigns the chosen property, and
    completes as this last assignment does.  The decision is used by
    every later write. *)
Theorem probe_decides_by_read_back a value :
  let el := nativeElement a in
  let previous := getProperty (valueProp el) el in
  let o1 := setProperty (valueProp el) value el in
  let b := strict_eq (getProperty (valueProp el) (settled o1)) value in
  let o2 := setProperty (valueProp el) previous (settled o1) in
  let o3 := setProperty (chosen el b) value (settled o2) in
  useSelectableValueProp a = None ->
  hasProperty (valueProp el) el = true ->
  hasProperty (indexProp el) el = true ->
  isConcrete value = true ->
  useSelectableValueProp (snd (writeValue value a)) = Some b
  /\ (raised o2 = None ->
      fst (writeValue value a) = completion_of (raised o3)
      /\ assigned (snd (writeValue value a))
         = assigned a ++ [(valueProp el, value); (valueProp el, previous);
                          (chosen el b, value)])
  /\ forall acts value',
       let a' := lifetime acts (snd (writeValue value a)) in
       useSelectableValueProp a' = Some b
       /\ (isMultiSelectable (nativeElement a') = isMultiSelectable el ->
           isMultiSelectable (nativeElement a')
             || isSelectable (nativeElement a') = true ->
           assigned (snd (writeValue value' a'))
             = assigned a' ++ [(chosen el b, value')]).
Proof.
  intros el previous o1 b o2 o3 Hd Hv Hi Hc.
  destruct (exposing_both_selectable el Hv Hi) as [Hsel Hs].
  rewrite <- Hd in Hs at 1.
  pose proof (writeValue_probing value a Hsel Hs Hc) as Hw.
  cbv zeta in Hw. fold el previous o1 b o2 o3 in Hw.
  assert (Hb : useSelectableValueProp (snd (writeValue value a)) = Some b).
  { rewrite Hw. destruct (raised o2); reflexivity. }
  split; [exact Hb|]. split.
  - intros Ho2. rewrite Hw, Ho2. cbn [fst snd]. split; [reflexivity|].
    cbn [assigned with_writing with_element with_assigned with_decision].
    rewrite <- !app_assoc. reflexivity.
  - intros acts value' a'.
    assert (Hd' : useSelectableValueProp a' = Some b)
      by (apply lifetime_keeps_decision; exact Hb).
    split; [exact Hd'|]. intros Hclass Hsel'.
    rewrite (writeValue_decided_trace value' a' b Hd' Hsel').
    rewrite (chosen_same_class el (nativeElement a') b Hclass). reflexivity.
Qed.

(** C2, as the code has it.  The probe re-assigns the previous value of
    the item-property after reading back; whenever the element accepts
    that re-assignment (it does not throw and the property then reads as
    the previous value), [getSelectableProperty] returns and the
    item-property is what it was before the probe, whether the
    speculative assignment threw or not and whatever was decided. *)
Theorem probe_restores_item_property a value :
  let el := nativeElement a in
  let previous := getProperty (valueProp el) el in
  let o1 := setProperty (valueProp el) value el in
  let o2 := setProperty (valueProp el) previous (settled o1) in
  useSelectableValueProp a = None ->
  hasProperty (valueProp el) el = true ->
  hasProperty (indexProp el) el = true ->
  isConcrete value = true ->
  raised o2 = None ->
  getProperty (valueProp el) (settled o2) = previous ->
  exists property a',
    getSelectableProperty value a = (Normal property, a')
    /\ getProperty (valueProp el) (nativeElement a') = previous.
Proof.
  intros el previous o1 o2 Hd Hv Hi Hc Hraise Hback.
  unfold getSelectableProperty, getSelectablePropertyVia.
  unfold bind at 1. unfold element at 1. fold el.
  unfold bind at 1. unfold decision at 1. rewrite Hd.
  rewrite Hv, Hi, Hc. cbn [andb negb].
  unfold bind at 1. unfold bind at 1. unfold read at 1. fold el previous.
  unfold bind at 1. unfold tryCatch.
  destruct (assign_outcome (valueProp el) value a) as [_ He1].
  fold el o1 in He1.
  destruct (assign (valueProp el) value a) as [c1 a1]. cbn [snd] in He1.
  assert (Hstep : forall c : Completion unit,
            (let (c0, a0) := match c with
                             | Normal _ => (c, a1)
                             | Thrown _ => (Normal tt, a1)
                             end in
             match c0 with
             | Normal _ => (Normal tt, a0)
             | Thrown e => (Thrown e, a0)
             end) = (Normal tt, a1)).
  { intros [[]|e]; reflexivity. }
  set (after := with_decision
                  (Some (strict_eq (getProperty (valueProp el)
                                      (nativeElement a1)) value)) a1).
  destruct (assign_outcome (valueProp el) previous after) as [Hc2 He2].
  assert (Hafter : nativeElement after = settled o1) by exact He1.
  rewrite Hafter in Hc2, He2. fold o2 in Hc2, He2. rewrite Hraise in Hc2.
  destruct c1 as [[]|e1];
    unfold bind, read, setDecision, ret; fold after;
    destruct (assign (valueProp el) previous after) as [c2 a2];
    cbn [fst snd] in Hc2, He2; rewrite Hc2; cbn [completion_of decision];
    eexists _, a2; (split; [reflexivity|]); rewrite He2; exact Hback.
Qed.

(** C4.  A write forwards nothing to the control, whatever events the
    element dispatches from the assignments made during it: a listener
    run while the guard is up returns without doing anything.  When
    the write returns, the guard is down and the next notification is
    handled by the body of the listener. *)
Theorem writeValue_suppresses_notifications a value :
  forwarded (snd (writeValue value a)) = forwarded a
  /\ (forall a' event,
        isWritingValue a' = true ->
        onChangedEvent event a' = (Normal tt, a'))
  /\ (forall a' p v,
        isWritingValue a' = true ->
        forwarded (snd (assign p v a')) = forwarded a')
  /\ (isNormal (fst (writeValue value a)) = true ->
      isWritingValue (snd (writeValue value a)) = false
      /\ forall event,
          onChangedEvent event (snd (writeValue value a))
          = handleChange event (snd (writeValue value a))).
Proof.
  split; [apply writeValue_forwards_nothing|].
  split; [intros a' event; apply onChangedEvent_while_writing|].
  split.
  - intros a' p v Hw. rewrite (assign_while_writing p v a' Hw). reflexivity.
  - intros Hnormal.
    pose proof (writeValue_returns_unguarded value a Hnormal) as Hdown.
    split; [exact Hdown|]. intros event.
    rewrite onChangedEvent_eq, Hdown. reflexivity.
Qed.

(** The listener as it is written.  Outside a write, a notification
    is forwarded exactly when [relevant] holds: an item(s)-changed one
    when the resolved property is [selectedItems] or [selectedItem], a
    selected- or values-changed one when it is [selectedValues] or
    [selected], any other one always, resolved property or not.  The
    value forwarded is read from the element, under the key [source]
    gives; the payload of the event has no part in it. *)
Theorem onChangedEvent_forwards_relevant a event :
  let el := nativeElement a in
  let resolved := chosen el <$> settle el (useSelectableValueProp a) in
  let a' := snd (onChangedEvent event a) in
  isWritingValue a = false ->
  fst (getSelectablePropertyOfElement a) = Normal resolved
  /\ forwarded a'
     = (if relevant event resolved
        then forwarded a ++ [getProperty (source el resolved) el]
        else forwarded a)
  /\ (isItemEvent event = true ->
      forwarded a' <> forwarded a ->
      resolved = Some "selectedItems" \/ resolved = Some "selectedItem")
  /\ (isIndexEvent event = true ->
      forwarded a' <> forwarded a ->
      resolved = Some "selectedValues" \/ resolved = Some "selected")
  /\ (isMultiSelectable el || isSelectable el = true ->
      forall p, resolved = Some p -> source el resolved = p)
  /\ (forall payload,
        onChangedEvent {| type := type event; detail := payload |} a
        = onChangedEvent event a).
Proof.
  intros el resolved a' Hw.
  assert (Hfw : forwarded a'
     = (if relevant event resolved
        then forwarded a ++ [getProperty (source el resolved) el]
        else forwarded a)).
  { unfold a'. rewrite onChangedEvent_eq, Hw, handleChange_eq. cbn [snd].
    fold el. fold resolved. destruct (relevant event resolved); reflexivity. }
  split; [rewrite getSelectablePropertyOfElement_eq; reflexivity|].
  split; [exact Hfw|]. split; [|split; [|split]].
  - intros Hitem Hneq. apply isOneOf_true.
    unfold relevant in Hfw. rewrite Hitem in Hfw.
    destruct (isOneOf resolved _ _); [reflexivity|]. contradiction.
  - intros Hindex Hneq. apply isOneOf_true.
    unfold relevant in Hfw.
    rewrite (index_event_not_item_event event Hindex), Hindex in Hfw.
    destruct (isOneOf resolved _ _); [reflexivity|]. contradiction.
  - intros Hsel p Hp. unfold source. rewrite Hsel, Hp. reflexivity.
  - intros payload. reflexivity.
Qed.

End Facts.
End ValueAccessorFacts.

(* ===================================================================== *)
(** * The accessor on the sample elements                                 *)
(* ===================================================================== *)

Module ValueAccessorCases.
Import Js ValueAccessor ValueAccessorSpec ValueAccessorFacts Elements.

#[local] Open Scope list_scope.

(** C3.  [isMultiSelectable] looks for [selectedValues] twice and never
    for [selectedItems]: it holds exactly when [multi] is [true] and
    [selectedValues] is exposed.  The element [multi_items_only], whose
    [multi] is [true] and which exposes [selectedItems], is therefore
    not classified as multi-selectable, and a write to it ends up in
    its [value] property. *)
Theorem isMultiSelectable_never_tests_selectedItems :
  (forall (E : Type) (H : ElementLike E) (el : E),
      isMultiSelectable el
      = strict_eq (getProperty "multi" el) (VBool true)
        && hasProperty "selectedValues" el)
  /\ strict_eq (getProperty "multi" multi_items_only) (VBool true) = true
  /\ hasProperty "selectedItems" multi_items_only = true
  /\ hasProperty "selectedValues" multi_items_only = false
  /\ isMultiSelectable multi_items_only = false
  /\ assigned (snd (writeValue (VObj 3) (create multi_items_only)))
     = [("value", VObj 3)].
Proof.
  split.
  - intros E H el. unfold isMultiSelectable, isPropertyDefined.
    cbn [andb]. rewrite orb_diag. reflexivity.
  - vm_compute. repeat split; reflexivity.
Qed.

(** C1.  The code breaks the claim on [frozen_item_box], whose
    [selectedItem] is ["x"] and cannot be assigned.  A write of ["x"] is
    a write of a concrete value to an undecided accessor of an element
    exposing both candidates.  The speculative assignment throws and is
    caught, and yet the item-property is chosen, because the property
    reads ["x"]: a failed assignment does not lead to the
    index-property, as the comment above the [try] says it does.  The
    re-assignment of the previous value, which is outside the [try],
    then throws out of [writeValue]: the caller gets the exception, and
    the chosen property is never assigned. *)
Lemma thrown_assignment_can_choose_item_property :
  useSelectableValueProp (create frozen_item_box) = None
  /\ hasProperty (valueProp frozen_item_box) frozen_item_box = true
  /\ hasProperty (indexProp frozen_item_box) frozen_item_box = true
  /\ isConcrete (VStr "x") = true
  /\ raised (setProperty "selectedItem" (VStr "x") frozen_item_box)
     = Some TypeError
  /\ useSelectableValueProp
       (snd (writeValue (VStr "x") (create frozen_item_box))) = Some true
  /\ fst (writeValue (VStr "x") (create frozen_item_box)) = Thrown TypeError
  /\ assigned (snd (writeValue (VStr "x") (create frozen_item_box)))
     = [("selectedItem", VStr "x"); ("selectedItem", VStr "x")].
Proof. vm_compute. repeat split; reflexivity. Qed.

(** C5.  The code breaks the claim on [list_box], which exposes both
    candidates, while no decision is made: [getSelectableProperty]
    resolves to no property, and a [value-changed] or [checked-changed]
    notification received outside a write is forwarded all the same.
    The value handed to [onChange] is [element[undefined]]: it is read
    from no resolved property, and is neither the selected index nor
    the selected item.  The comment above the non-null assertion says
    that the property is defined whenever this point is reached. *)
Theorem unresolved_property_is_forwarded :
  useSelectableValueProp (create list_box) = None
  /\ isWritingValue (create list_box) = false
  /\ hasProperty (valueProp list_box) list_box = true
  /\ hasProperty (indexProp list_box) list_box = true
  /\ fst (getSelectablePropertyOfElement (create list_box)) = Normal None
  /\ fst (getSelectableProperty VUndefined (create list_box)) = Normal None
  /\ getProperty "selected" list_box = VNum 0
  /\ getProperty "selectedItem" list_box = VObj 7
  /\ forwarded
       (snd (onChangedEvent
               {| type := "value-changed"; detail := VStr "payload" |}
               (create list_box)))
     = [getProperty "undefined" list_box]
  /\ forwarded
       (snd (onChangedEvent
               {| type := "checked-changed"; detail := VStr "payload" |}
               (create list_box)))
     = [getProperty "undefined" list_box]
  /\ getProperty "undefined" list_box = VUndefined.
Proof. vm_compute. repeat split; reflexivity. Qed.

(** C2 does not hold as stated.  On [sticky_box], which has nothing
    selected and ignores an assignment of [undefined] to [selectedItem],
    the probe with ["x"] returns (choosing the item-property) and
    leaves [selectedItem] at ["x"], not at the [undefined] it held
    before. *)
Lemma probe_can_leave_item_property_changed :
  useSelectableValueProp (with_writing true (create sticky_box)) = None
  /\ hasProperty (valueProp sticky_box) sticky_box = true
  /\ hasProperty (indexProp sticky_box) sticky_box = true
  /\ isConcrete (VStr "x") = true
  /\ fst (getSelectableProperty (VStr "x")
            (with_writing true (create sticky_box)))
     = Normal (Some "selectedItem")
  /\ getProperty "selectedItem" sticky_box = VUndefined
  /\ getProperty "selectedItem"
       (nativeElement
          (snd (getSelectableProperty (VStr "x")
                  (with_writing true (create sticky_box)))))
     = VStr "x".
Proof. vm_compute. repeat split; reflexivity. Qed.

(** [typed_list_box] rejects the string by throwing: the index-property
    is chosen and written, and nothing is thrown at the caller. *)
Lemma probe_decides_by_read_back_witness :
  raised (setProperty "selectedItem" (VStr "x") typed_list_box)
    = Some TypeError
  /\ useSelectableValueProp
       (snd (writeValue (VStr "x") (create typed_list_box))) = Some false
  /\ fst (writeValue (VStr "x") (create typed_list_box)) = Normal tt
  /\ assigned (snd (writeValue (VStr "x") (create typed_list_box)))
     = [("selectedItem", VStr "x"); ("selectedItem", VObj 7);
        ("selected", VStr "x")].
Proof.
  destruct (probe_decides_by_read_back (create typed_list_box) (VStr "x"))
    as (Hb & Hw & _); [vm_compute; reflexivity ..|].
  destruct Hw as [Hc Ha]; [vm_compute; reflexivity|].
  split; [vm_compute; reflexivity|].
  split; [exact Hb|]. split; [exact Hc|exact Ha].
Defined.

(** On [typed_list_box] the speculative assignment throws and the
    previous item is put back. *)
Lemma probe_restores_item_property_witness :
  exists property a',
    getSelectableProperty (VStr "x") (create typed_list_box)
      = (Normal property, a')
    /\ getProperty "selectedItem" (nativeElement a') = VObj 7.
Proof.
  destruct (probe_restores_item_property (create typed_list_box) (VStr "x"))
    as (property & a' & Heq & Hback); [vm_compute; reflexivity ..|].
  exists property, a'. split; [exact Heq|exact Hback].
Defined.

(** [NaN] is never [===] to itself: a list box that stores the [NaN] it
    is given is bound through its index-property all the same. *)
Example nan_is_never_read_back :
  getProperty "selectedItem"
    (settled (setProperty "selectedItem" VNaN list_box)) = VNaN
  /\ useSelectableValueProp (snd (writeValue VNaN (create list_box)))
     = Some false.
Proof. vm_compute. split; reflexivity. Qed.

(** A write that ends by an exception does not reach the statement that
    lowers the guard: later notifications are dropped. *)
Example guard_stays_up_after_a_throwing_write :
  isWritingValue (snd (writeValue (VStr "x") (create frozen_item_box)))
    = true
  /\ forwarded
       (snd (onChangedEvent
               {| type := "selected-changed"; detail := VUndefined |}
               (snd (writeValue (VStr "x") (create frozen_item_box)))))
     = [].
Proof. vm_compute. split; reflexivity. Qed.

Lemma writeValue_without_value_is_dropped_witness :
  writeValue VUndefined (create list_box)
    = (Normal tt, with_writing false (create list_box))
  /\ assigned (snd (writeValue VUndefined (create list_box))) = []
  /\ nativeElement (snd (writeValue VUndefined (create list_box))) = list_box
  /\ useSelectableValueProp (snd (writeValue VUndefined (create list_box)))
     = None
  /\ forwarded (snd (writeValue VUndefined (create list_box))) = [].
Proof.
  apply (writeValue_without_value_is_dropped (create list_box) VUndefined);
    first [vm_compute; reflexivity | left; reflexivity].
Defined.

Lemma single_candidate_is_chosen_for_good_witness :
  assigned (snd (writeValue (VStr "x") (create item_only)))
    = [("selectedItem", VStr "x")]
  /\ useSelectableValueProp (snd (writeValue (VStr "x") (create item_only)))
     = Some true.
Proof.
  destruct (single_candidate_is_chosen_for_good (create item_only) (VStr "x"))
    as (_ & _ & Ha & Hd & _); [vm_compute; reflexivity ..|].
  split; [exact Ha|exact Hd].
Defined.

(** [text_input] dispatches [value-changed] from the assignment made by
    the write; nothing is forwarded until the same notification arrives
    after the write. *)
Lemma writeValue_suppresses_notifications_witness :
  map (fun d => type (snd d))
      (dispatched (setProperty "value" (VStr "hi") text_input))
    = ["value-changed"]
  /\ forwarded (snd (writeValue (VStr "hi") (create text_input))) = []
  /\ isWritingValue (snd (writeValue (VStr "hi") (create text_input)))
     = false
  /\ forwarded
       (snd (onChangedEvent
               {| type := "value-changed"; detail := VStr "payload" |}
               (snd (writeValue (VStr "hi") (create text_input)))))
     = [VStr "hi"].
Proof.
  destruct (writeValue_suppresses_notifications (create text_input)
              (VStr "hi"))
    as (Hquiet & _ & _ & Hafter).
  destruct Hafter as [Hdown Hnext]; [vm_compute; reflexivity|].
  split; [vm_compute; reflexivity|].
  split; [exact Hquiet|]. split; [exact Hdown|].
  rewrite Hnext. vm_compute. reflexivity.
Defined.

(** A decided accessor of [list_box] forwards the selected item itself
    on [selected-item-changed], and nothing on [selected-changed]. *)
Lemma onChangedEvent_forwards_relevant_witness :
  forwarded
    (snd (onChangedEvent
            {| type := "selected-item-changed"; detail := VStr "payload" |}
            (with_decision (Some true) (create list_box))))
    = [VObj 7]
  /\ forwarded
       (snd (onChangedEvent
               {| type := "selected-changed"; detail := VStr "payload" |}
               (with_decision (Some true) (create list_box))))
     = [].
Proof.
  split.
  - destruct (onChangedEvent_forwards_relevant
                (with_decision (Some true) (create list_box))
                {| type := "selected-item-changed";
                   detail := VStr "payload" |})
      as (_ & Hfw & _); [vm_compute; reflexivity|].
    rewrite Hfw. vm_compute. reflexivity.
  - destruct (onChangedEvent_forwards_relevant
                (with_decision (Some true) (create list_box))
                {| type := "selected-changed"; detail := VStr "payload" |})
      as (_ & Hfw & _); [vm_compute; reflexivity|].
    rewrite Hfw. vm_compute. reflexivity.
Defined.

End ValueAccessorCases.

(* ===================================================================== *)
(** * The polyfill utilities on the sample files                          *)
(* ===================================================================== *)

Module PolyfillUtilCases.
Import Js PolyfillUtil PolyfillUtilSpec PolyfillUtilFacts.

Lemma getAngularJsonPath_first_existing_witness :
  getAngularJsonPath sample_resolve both_files = Normal "/app/angular.json"
  /\ getAngularJsonPath sample_resolve (cli_only_files "ES5")
     = Normal "/app/.angular-cli.json"
  /\ getAngularJsonPath sample_resolve ∅
     = Thrown (Error missing_config_message).
Proof.
  split; [|split].
  - apply (getAngularJsonPath_first_existing sample_resolve both_files).
    vm_compute. eauto.
  - apply (getAngularJsonPath_first_existing sample_resolve
             (cli_only_files "ES5")).
    + vm_compute. reflexivity.
    + vm_compute. eauto.
  - destruct (getAngularJsonPath_first_existing sample_resolve ∅)
      as (Heq & _). rewrite Heq. vm_compute. reflexivity.
Defined.

Lemma es5_queries_ignore_case_witness :
  isAngularCliJsonEs5 sample_resolve (cli_only_files "ES5") sample_app
    = (["/app/tsconfig.json"], Normal true)
  /\ isAngularCliJsonEs5 sample_resolve (cli_only_files "ES2015") sample_app
     = (["/app/tsconfig.json"], Normal false)
  /\ isAngularJsonEs5 sample_resolve (cli_only_files "ES5")
       project_without_test test
     = ([], Normal false).
Proof.
  split; [|split].
  - destruct (es5_queries_ignore_case sample_resolve (cli_only_files "ES5"))
      as (_ & _ & _ & Hcli & _).
    apply (Hcli sample_app (tsconfig_with_target "ES5") "ES5");
      vm_compute; reflexivity.
  - destruct (es5_queries_ignore_case sample_resolve
                (cli_only_files "ES2015"))
      as (_ & _ & _ & Hcli & _).
    apply (Hcli sample_app (tsconfig_with_target "ES2015") "ES2015");
      vm_compute; reflexivity.
  - destruct (es5_queries_ignore_case sample_resolve (cli_only_files "ES5"))
      as (_ & _ & _ & _ & _ & Hnone).
    apply Hnone. reflexivity.
Defined.

(** A configuration without [compilerOptions], and one whose
    [compilerOptions] has no [target]. *)
Lemma isEs5_partial_witness :
  isEs5 (JObj ∅) = Thrown TypeError
  /\ isEs5 (JObj {[ "compilerOptions" := JObj ∅ ]}) = Thrown TypeError
  /\ exists b, isEs5 (tsconfig_with_target "ES5") = Normal b.
Proof.
  destruct (isEs5_partial sample_resolve ∅) as (Hiff & Hthrow & _).
  split; [|split].
  - apply Hthrow. vm_compute. reflexivity.
  - apply Hthrow. vm_compute. reflexivity.
  - apply Hiff. vm_compute. eauto.
Defined.

End PolyfillUtilCases.

(* ===================================================================== *)
(** * Further properties of the polyfill utilities                        *)
(* ===================================================================== *)

Module PolyfillUtilMore.
Import Js PolyfillUtil PolyfillUtilSpec.

#[local] Open Scope list_scope.

Lemma guard_on_falsy (name : string) (k : option Json -> option Json)
    (json : option Json) :
  truthy json = false ->
  and_then json (bindC (member name json) (fun p => Normal (k p)))
  = Normal json.
Proof. intros Hf. unfold and_then. rewrite Hf. reflexivity. Qed.

Lemma guard_on_truthy (name : string) (k : option Json -> option Json)
    (json : option Json) :
  truthy json = true ->
  and_then json (bindC (member name json) (fun p => Normal (k p)))
  = Normal (k match json with
              | Some (JObj fields) => fields !! name
              | _ => None
              end).
Proof.
  intros Ht. unfold and_then. rewrite Ht.
  destruct json as [[| | | | |fields]|]; try discriminate Ht; reflexivity.
Qed.

Lemma truthy_double_not (x : option Json) :
  truthy (double_not x) = truthy x.
Proof. reflexivity. Qed.

Lemma truthy_isArray (x : option Json) :
  truthy (isArray x) = true <-> exists items, x = Some (JArr items).
Proof.
  destruct x as [[| | | |items|]|]; cbn; split;
    try discriminate; try (intros [? [=]]); eauto.
Qed.

(** X2.  The three schema guards never throw, not even on [null] or
    [undefined]: a falsy argument is returned as it is (so the result
    need not be a boolean), and a truthy one is answered by a boolean
    that is [true] exactly when the argument is an object whose
    [projects] (or [architect]) field is truthy, or whose [apps] field
    is an array. *)
Theorem schema_guards_decide_by_field (json : option Json) :
  (truthy json = false ->
     isAngularJson json = Normal json
     /\ isAngularJsonProject json = Normal json
     /\ isAngularCliJson json = Normal json)
  /\ (truthy json = true ->
     exists b1 b2 b3,
       isAngularJson json = Normal (Some (JBool b1))
       /\ isAngularJsonProject json = Normal (Some (JBool b2))
       /\ isAngularCliJson json = Normal (Some (JBool b3))
       /\ (b1 = true <->
           exists fields p, json = Some (JObj fields)
             /\ fields !! "projects" = Some p /\ truthy (Some p) = true)
       /\ (b2 = true <->
           exists fields p, json = Some (JObj fields)
             /\ fields !! "architect" = Some p /\ truthy (Some p) = true)
       /\ (b3 = true <->
           exists fields items, json = Some (JObj fields)
             /\ fields !! "apps" = Some (JArr items))).
Proof.
  split.
  - intros Hf. unfold isAngularJson, isAngularJsonProject, isAngularCliJson.
    rewrite !guard_on_falsy by exact Hf. auto.
  - intros Ht. unfold isAngularJson, isAngularJsonProject, isAngularCliJson.
    rewrite !guard_on_truthy by exact Ht.
    destruct json as [[| | | | |fields]|]; try discriminate Ht.
    + exists false, false, false. cbn.
      repeat split; try discriminate; intros (? & ? & [=] & _).
    + exists false, false, false. cbn.
      repeat split; try discriminate; intros (? & ? & [=] & _).
    + exists false, false, false. cbn.
      repeat split; try discriminate; intros (? & ? & [=] & _).
    + exists false, false, false. cbn.
      repeat split; try discriminate; intros (? & ? & [=] & _).
    + exists (truthy (fields !! "projects")),
             (truthy (fields !! "architect")),
             (truthy (isArray (fields !! "apps"))).
      split; [reflexivity|]. split; [reflexivity|].
      split; [unfold isArray; destruct (fields !! "apps") as [[]|];
              reflexivity|].
      split; [|split].
      * split.
        -- intros Hp. destruct (fields !! "projects") as [p|] eqn:Hl;
             [|discriminate Hp]. eauto.
        -- intros (f & p & [= <-] & Hl & Hp). rewrite Hl. exact Hp.
      * split.
        -- intros Hp. destruct (fields !! "architect") as [p|] eqn:Hl;
             [|discriminate Hp]. eauto.
        -- intros (f & p & [= <-] & Hl & Hp). rewrite Hl. exact Hp.
      * rewrite truthy_isArray. split.
        -- intros [items Hl]. eauto.
        -- intros (f & items & [= <-] & Hl). eauto.
Qed.

Lemma schema_guards_decide_by_field_witness :
  isAngularJson (Some JNull) = Normal (Some JNull)
  /\ isAngularCliJson None = Normal None
  /\ isAngularJson (Some (JObj {[ "projects" := JObj ∅ ]}))
     = Normal (Some (JBool true))
  /\ isAngularJson (Some (JObj {[ "projects" := JStr "" ]}))
     = Normal (Some (JBool false))
  /\ isAngularCliJson (Some (JObj {[ "apps" := JArr [] ]}))
     = Normal (Some (JBool true)).
Proof.
  destruct (schema_guards_decide_by_field (Some JNull)) as [Hnull _].
  destruct Hnull as (Hn & _ & _); [reflexivity|].
  destruct (schema_guards_decide_by_field None) as [Hundef _].
  destruct Hundef as (_ & _ & Hu); [reflexivity|].
  split; [exact Hn|]. split; [exact Hu|].
  vm_compute. repeat split; reflexivity.
Defined.

End PolyfillUtilMore.

(* ===================================================================== *)
(** * Further properties of the value accessor                            *)
(* ===================================================================== *)

Module ValueAccessorMore.
Import Js ValueAccessor ValueAccessorSpec ValueAccessorFacts.

#[local] Open Scope list_scope.
#[local] Open Scope method_scope.

Section More.
Context {E : Type} `{ElementLike E}.

Implicit Types (a : Accessor E) (el : E) (v value : Value) (p : string).

Lemma settle_forced el b :
  settle el None = Some b ->
  xorb (hasProperty (valueProp el) el) (hasProperty (indexProp el) el) = true
  /\ b = hasProperty (valueProp el) el.
Proof.
  unfold settle.
  destruct (hasProperty (valueProp el) el), (hasProperty (indexProp el) el);
    cbn; intros [= <-]; split; reflexivity.
Qed.

Lemma chosen_is_candidate el b :
  chosen el b = valueProp el \/ chosen el b = indexProp el.
Proof. destruct b; [left|right]; reflexivity. Qed.

Lemma onChangedEvent_only_reads_forward a event :
  forwarded (snd (onChangedEvent event a)) = forwarded a
  \/ exists p,
       forwarded (snd (onChangedEvent event a))
       = forwarded a ++ [getProperty p (nativeElement a)].
Proof.
  rewrite onChangedEvent_eq.
  destruct (isWritingValue a); [left; reflexivity|].
  rewrite handleChange_eq. cbn [snd].
  destruct (relevant event _); cbn; eauto.
Qed.

(** X4.  A notification only reads the element: it assigns nothing,
    leaves the element and the guard as they are, calls [onChange] at
    most once, with a value read from the element, and never probes:
    the only decision it can record is the one forced by an element
    exposing exactly one of the two candidates. *)
Theorem onChangedEvent_only_reads a event :
  let el := nativeElement a in
  let a' := snd (onChangedEvent event a) in
  nativeElement a' = el
  /\ isWritingValue a' = isWritingValue a
  /\ assigned a' = assigned a
  /\ (forwarded a' = forwarded a
      \/ exists p, forwarded a' = forwarded a ++ [getProperty p el])
  /\ (useSelectableValueProp a' = useSelectableValueProp a
      \/ (useSelectableValueProp a = None
          /\ xorb (hasProperty (valueProp el) el)
                  (hasProperty (indexProp el) el) = true
          /\ useSelectableValueProp a'
             = Some (hasProperty (valueProp el) el))).
Proof.
  intros el a'. unfold a'. rewrite onChangedEvent_eq.
  destruct (isWritingValue a) eqn:Hw.
  - cbn [snd]. rewrite Hw. repeat split; auto.
  - rewrite handleChange_eq. cbn [snd]. fold el.
    assert (Hdec : settle el (useSelectableValueProp a)
                   = useSelectableValueProp a
              \/ (useSelectableValueProp a = None
                  /\ xorb (hasProperty (valueProp el) el)
                          (hasProperty (indexProp el) el) = true
                  /\ settle el (useSelectableValueProp a)
                     = Some (hasProperty (valueProp el) el))).
    { destruct (useSelectableValueProp a) as [b|]; [left; reflexivity|].
      destruct (settle el None) as [b|] eqn:Hs; [|left; reflexivity].
      right. destruct (settle_forced el b Hs) as [Hx ->]. auto. }
    destruct (relevant event _);
      cbn [nativeElement isWritingValue assigned forwarded
           useSelectableValueProp with_forwarded with_decision];
      repeat split; eauto.
Qed.

(** X5.  When [writeValue] is left, the guard is up exactly if it was
    left by an exception, whatever the guard was before.  After a write
    that threw, notifications are dropped, however many arrive. *)
Theorem writeValue_guard_follows_completion a value :
  isWritingValue (snd (writeValue value a))
  = negb (isNormal (fst (writeValue value a)))
  /\ (isNormal (fst (writeValue value a)) = false ->
      forall notes : list (E * Event),
        forwarded
          (lifetime (map (fun n => Notify (fst n) (snd n)) notes)
                    (snd (writeValue value a)))
        = forwarded a).
Proof.
  assert (Hguard : isWritingValue (snd (writeValue value a))
                   = negb (isNormal (fst (writeValue value a)))).
  { destruct (destination (nativeElement a) (useSelectableValueProp a) value)
      as [[p v']|] eqn:Hp.
    - rewrite (writeValue_direct value a p v' Hp). cbn [fst snd].
      destruct (raised _); reflexivity.
    - apply destination_none in Hp as [Hsel Hs].
      destruct (isConcrete value) eqn:Hv.
      + rewrite (writeValue_probing value a Hsel Hs Hv).
        destruct (raised _); [reflexivity|]. cbn [fst snd].
        destruct (raised _); reflexivity.
      + rewrite (writeValue_dropped value a Hsel Hs Hv). reflexivity. }
  split; [exact Hguard|]. intros Hthrown notes.
  rewrite Hthrown in Hguard. cbn [negb] in Hguard.
  rewrite <- (writeValue_forwards_nothing value a).
  generalize dependent (snd (writeValue value a)). clear Hthrown.
  induction notes as [|[el event] notes IH]; intros a1 Hup; [reflexivity|].
  cbn [map lifetime fold_left fst snd perform].
  rewrite onChangedEvent_while_writing by exact Hup. cbn [snd].
  fold (lifetime (map (fun n => Notify (fst n) (snd n)) notes)
                 (with_element el a1)).
  rewrite IH by exact Hup. reflexivity.
Qed.

(** X6.  A write to an element classified as selectable or
    multi-selectable makes at most three assignments, each of them to
    one of the two candidate properties: [checked] and [value] are
    never assigned on such an element. *)
Theorem writeValue_assigns_candidates_only a value :
  let el := nativeElement a in
  isMultiSelectable el || isSelectable el = true ->
  exists added,
    assigned (snd (writeValue value a)) = assigned a ++ added
    /\ length added <= 3
    /\ Forall (fun pv => fst pv = valueProp el \/ fst pv = indexProp el)
              added.
Proof.
  intros el Hsel.
  destruct (settle el (useSelectableValueProp a)) as [b|] eqn:Hs.
  - assert (Hp : destination el (useSelectableValueProp a) value
                 = Some (chosen el b, value)).
    { unfold destination. rewrite Hsel, Hs. reflexivity. }
    rewrite (writeValue_direct value a _ _ Hp).
    exists [(chosen el b, value)]. split; [reflexivity|].
    split; [cbn; lia|].
    constructor; [apply chosen_is_candidate|constructor].
  - destruct (isConcrete value) eqn:Hv.
    + rewrite (writeValue_probing value a Hsel Hs Hv). fold el.
      destruct (raised (setProperty (valueProp el) _ (settled _))).
      * eexists [(valueProp el, value); (valueProp el, _)].
        split; [cbn; rewrite <- app_assoc; reflexivity|].
        split; [cbn; lia|].
        constructor; [left; reflexivity|].
        constructor; [left; reflexivity|constructor].
      * eexists [(valueProp el, value); (valueProp el, _); (chosen el _, value)].
        split; [cbn; rewrite <- !app_assoc; reflexivity|].
        split; [cbn; lia|].
        constructor; [left; reflexivity|].
        constructor; [left; reflexivity|].
        constructor; [apply chosen_is_candidate|constructor].
    + rewrite (writeValue_dropped value a Hsel Hs Hv).
      exists []. split; [cbn; rewrite app_nil_r; reflexivity|].
      split; [cbn; lia|constructor].
Qed.

(** X7.  On an element that is neither selectable nor multi-selectable
    and exposes [checked], a write makes one assignment, of
    [Boolean(value)] to [checked]; it completes as that assignment
    does, and neither decides anything nor forwards anything. *)
Theorem writeValue_checkbox_coerces a value :
  let el := nativeElement a in
  let o := setProperty "checked" (VBool (toBoolean value)) el in
  isMultiSelectable el || isSelectable el = false ->
  isCheckedElement el = true ->
  fst (writeValue value a) = completion_of (raised o)
  /\ assigned (snd (writeValue value a))
     = assigned a ++ [("checked", VBool (toBoolean value))]
  /\ nativeElement (snd (writeValue value a)) = settled o
  /\ useSelectableValueProp (snd (writeValue value a))
     = useSelectableValueProp a
  /\ forwarded (snd (writeValue value a)) = forwarded a.
Proof.
  intros el o Hsel Hchecked.
  assert (Hp : destination el (useSelectableValueProp a) value
               = Some ("checked", VBool (toBoolean value))).
  { unfold destination. rewrite Hsel, Hchecked. reflexivity. }
  rewrite (writeValue_direct value a _ _ Hp). fold el o.
  cbn [fst snd assigned nativeElement useSelectableValueProp forwarded
       with_writing with_element with_assigned with_decision].
  rewrite (settle_not_selectable el _ Hsel). auto.
Qed.

(** X8.  While no decision is made on an element exposing both
    candidates, a selection notification (item(s)-changed,
    selected-changed, values-changed) changes nothing at all: the value
    the user selected is not forwarded, and no decision is taken. *)
Theorem selection_events_dropped_while_undecided a event :
  let el := nativeElement a in
  useSelectableValueProp a = None ->
  hasProperty (valueProp el) el = true ->
  hasProperty (indexProp el) el = true ->
  isItemEvent event || isIndexEvent event = true ->
  onChangedEvent event a = (Normal tt, a).
Proof.
  intros el Hd Hv Hi Hkind.
  rewrite onChangedEvent_eq.
  destruct (isWritingValue a); [reflexivity|].
  rewrite handleChange_eq. fold el. rewrite Hd.
  destruct (exposing_both_selectable el Hv Hi) as [_ Hs]. rewrite Hs.
  cbn [fmap option_fmap option_map].
  assert (Hrel : relevant event None = false).
  { unfold relevant. destruct (isItemEvent event); [reflexivity|].
    cbn [orb] in Hkind. rewrite Hkind. reflexivity. }
  rewrite Hrel, <- Hd, with_decision_same. reflexivity.
Qed.

(** X9.  In the same undecided state, a notification of any other type
    (such as [value-changed] or [checked-changed]) received outside a
    write is forwarded although no property is resolved: the value
    handed to [onChange] is [element[undefined]]. *)
Theorem other_events_forward_undefined_key_while_undecided a event :
  let el := nativeElement a in
  useSelectableValueProp a = None ->
  hasProperty (valueProp el) el = true ->
  hasProperty (indexProp el) el = true ->
  isWritingValue a = false ->
  isItemEvent event = false ->
  isIndexEvent event = false ->
  onChangedEvent event a
  = (Normal tt, with_forwarded (getProperty "undefined" el) a).
Proof.
  intros el Hd Hv Hi Hw Hitem Hindex.
  rewrite onChangedEvent_eq, Hw, handleChange_eq. fold el. rewrite Hd.
  destruct (exposing_both_selectable el Hv Hi) as [Hsel Hs]. rewrite Hs.
  cbn [fmap option_fmap option_map].
  unfold relevant, source. rewrite Hitem, Hindex, Hsel. cbn [keyOf].
  rewrite <- Hd, with_decision_same. reflexivity.
Qed.

(** X10.  Without a concrete value to probe with, an undecided
    accessor never resolves to [selectedItems]: an element classified
    as multi-selectable always exposes [selectedValues].  On such an
    element item notifications are therefore dropped until a write has
    decided. *)
Theorem selectedItems_needs_a_probe a event :
  let el := nativeElement a in
  useSelectableValueProp a = None ->
  fst (getSelectablePropertyOfElement a) <> Normal (Some "selectedItems")
  /\ (isMultiSelectable el = true ->
      isItemEvent event = true ->
      forwarded (snd (onChangedEvent event a)) = forwarded a).
Proof.
  intros el Hd.
  assert (Hres : chosen el <$> settle el None <> Some "selectedItems").
  { destruct (settle el None) as [b|] eqn:Hs; [|discriminate].
    destruct (settle_forced el b Hs) as [Hx ->].
    cbn [fmap option_fmap option_map]. unfold chosen, valueProp, indexProp in *.
    destruct (isMultiSelectable el) eqn:Hm.
    - unfold isMultiSelectable, isPropertyDefined in Hm. cbn [andb] in Hm.
      apply andb_true_iff in Hm as [_ Hm]. rewrite orb_diag in Hm.
      rewrite Hm in Hx.
      destruct (hasProperty "selectedItems" el); [discriminate Hx|].
      discriminate.
    - destruct (hasProperty "selectedItem" el); discriminate. }
  split.
  - rewrite getSelectablePropertyOfElement_eq. cbn [fst]. fold el.
    rewrite Hd. intros [= Heq]. exact (Hres Heq).
  - intros Hm Hitem. rewrite onChangedEvent_eq.
    destruct (isWritingValue a); [reflexivity|].
    rewrite handleChange_eq. fold el. rewrite Hd.
    assert (Hrel : relevant event (chosen el <$> settle el None) = false).
    { unfold relevant. rewrite Hitem.
      destruct (settle el None) as [b|] eqn:Hs; [|reflexivity].
      destruct (settle_forced el b Hs) as [Hx ->].
      cbn [fmap option_fmap option_map]. unfold chosen, valueProp, indexProp in *.
      rewrite Hm in *.
      unfold isMultiSelectable, isPropertyDefined in Hm. cbn [andb] in Hm.
      apply andb_true_iff in Hm as [_ Hm]. rewrite orb_diag in Hm.
      rewrite Hm in Hx.
      destruct (hasProperty "selectedItems" el); [discriminate Hx|].
      reflexivity. }
    rewrite Hrel. reflexivity.
Qed.

(** X13.  Over the whole life of an accessor the values forwarded to
    the control are only ever added to, and by notifications alone:
    what was forwarded stays forwarded, a write adds nothing, and a
    notification adds at most one value. *)
Theorem forwarded_grows_by_notifications (acts : list (@Activity E)) a :
  forwarded a `prefix_of` forwarded (lifetime acts a)
  /\ length (forwarded (lifetime acts a))
     <= length (forwarded a) + notifications acts.
Proof.
  revert a. induction acts as [|act acts IH]; intros a.
  - cbn. split; [reflexivity|lia].
  - cbn [lifetime fold_left]. fold (lifetime acts (perform a act)).
    destruct (IH (perform a act)) as [Hpre Hlen].
    destruct act as [value|el event]; cbn [perform] in *.
    + rewrite writeValue_forwards_nothing in Hpre, Hlen.
      split; [exact Hpre|]. cbn [notifications]. exact Hlen.
    + destruct (onChangedEvent_only_reads_forward (with_element el a) event)
        as [Hsame|[p Hone]].
      * rewrite Hsame in Hpre, Hlen. cbn [forwarded with_element] in *.
        split; [exact Hpre|]. cbn [notifications]. lia.
      * rewrite Hone in Hpre, Hlen. cbn [forwarded with_element] in *.
        split; [etransitivity; [apply prefix_app_r; reflexivity|exact Hpre]|].
        rewrite length_app in Hlen. cbn [length] in Hlen.
        cbn [notifications]. lia.
Qed.

End More.

End ValueAccessorMore.

(* ===================================================================== *)
(** * Elements with plain data properties                                 *)
(* ===================================================================== *)

Module PlainElements.
Import Js ValueAccessor ValueAccessorSpec ValueAccessorFacts Elements.

#[local] Open Scope list_scope.

Implicit Types (w : Widget) (a : Accessor Widget) (v value : Value)
  (p k : string).

Lemma strict_eq_same v : strict_eq v v = true <-> v <> VNaN.
Proof.
  destruct v; cbn; try (split; [discriminate|reflexivity]).
  - rewrite Bool.eqb_reflx. split; [discriminate|reflexivity].
  - rewrite Z.eqb_refl. split; [discriminate|reflexivity].
  - split; [discriminate|]. intros Hn. contradiction.
  - rewrite String.eqb_refl. split; [discriminate|reflexivity].
  - rewrite Nat.eqb_refl. split; [discriminate|reflexivity].
Qed.

Lemma plain_set p v w :
  setter w = accept_all ->
  setProperty p v w
  = {| dispatched := map (fun ev => (store p v w, ev)) (announces w p);
       settled := store p v w;
       raised := None |}.
Proof. intros Hs. cbn. unfold widget_set. rewrite Hs. reflexivity. Qed.

Lemma get_store_same p v w : getProperty p (store p v w) = v.
Proof. cbn. rewrite lookup_insert_eq. reflexivity. Qed.

Lemma get_store_other p k v w :
  p <> k -> getProperty k (store p v w) = getProperty k w.
Proof. intros Hne. cbn. rewrite lookup_insert_ne by exact Hne. reflexivity. Qed.

Lemma has_store_other p k v w :
  p <> k -> hasProperty k (store p v w) = hasProperty k w.
Proof. intros Hne. cbn. rewrite lookup_insert_ne by exact Hne. reflexivity. Qed.

Lemma has_store_same p v w : hasProperty p (store p v w) = true.
Proof. cbn. rewrite lookup_insert_eq. apply bool_decide_eq_true. eauto. Qed.

Lemma has_store_grows p k v w :
  hasProperty k w = true -> hasProperty k (store p v w) = true.
Proof.
  cbn. rewrite !bool_decide_eq_true. intros Hk.
  apply lookup_insert_is_Some'. right. exact Hk.
Qed.

(** Storing into a candidate property does not change how the element
    is classified. *)
Lemma store_candidate_same_class p v w :
  p = valueProp w \/ p = indexProp w ->
  isMultiSelectable (store p v w) = isMultiSelectable w.
Proof.
  unfold valueProp, indexProp.
  destruct (isMultiSelectable w) eqn:Hm; intros [->| ->];
    unfold isMultiSelectable, isPropertyDefined in *; cbn [andb] in *;
    rewrite orb_diag in *.
  - rewrite get_store_other, has_store_other by done. exact Hm.
  - apply andb_true_iff in Hm as [Hmulti _].
    rewrite get_store_other by done. rewrite Hmulti, has_store_same.
    reflexivity.
  - rewrite get_store_other, has_store_other by done. exact Hm.
  - rewrite get_store_other, has_store_other by done. exact Hm.
Qed.

Lemma store_candidate_still_selectable p v w :
  p = valueProp w \/ p = indexProp w ->
  isMultiSelectable w || isSelectable w = true ->
  isMultiSelectable (store p v w) || isSelectable (store p v w) = true.
Proof.
  intros Hp Hsel. rewrite (store_candidate_same_class p v w Hp).
  destruct (isMultiSelectable w); [reflexivity|]. cbn [orb] in *.
  unfold isSelectable, isPropertyDefined in *. cbn [andb] in *.
  apply orb_true_iff in Hsel as [Hk|Hk];
    apply (has_store_grows p _ v) in Hk; rewrite Hk;
    [reflexivity|apply orb_true_r].
Qed.

Lemma chosen_is_candidate_widget w b :
  chosen w b = valueProp w \/ chosen w b = indexProp w.
Proof. destruct b; [left|right]; reflexivity. Qed.

Lemma chosen_store p v w b :
  p = valueProp w \/ p = indexProp w ->
  chosen (store p v w) b = chosen w b.
Proof.
  intros Hp. apply chosen_same_class. apply store_candidate_same_class.
  exact Hp.
Qed.

(** X11.  On an element whose properties are plain data, the probe
    leaves no trace: a first write of a concrete value to an element
    exposing both candidates returns normally, and afterwards the
    element differs from what it was in the chosen property only,
    which holds the value.  The item-property is chosen for every value
    except [NaN], the one value that is not [===] to itself. *)
Theorem plain_probe_leaves_no_trace a value :
  let w := nativeElement a in
  let b := strict_eq value value in
  setter w = accept_all ->
  useSelectableValueProp a = None ->
  hasProperty (valueProp w) w = true ->
  hasProperty (indexProp w) w = true ->
  isConcrete value = true ->
  fst (writeValue value a) = Normal tt
  /\ useSelectableValueProp (snd (writeValue value a)) = Some b
  /\ properties (nativeElement (snd (writeValue value a)))
     = <[chosen w b := value]> (properties w)
  /\ (b = true <-> value <> VNaN).
Proof.
  intros w b Hset Hd Hv Hi Hc.
  destruct (exposing_both_selectable w Hv Hi) as [Hsel Hs].
  rewrite <- Hd in Hs at 1.
  rewrite (writeValue_probing value a Hsel Hs Hc). fold w.
  rewrite (plain_set (valueProp w) value w Hset). cbn [settled].
  rewrite get_store_same. fold b.
  rewrite (plain_set (valueProp w) _ (store (valueProp w) value w) Hset).
  cbn [settled raised].
  rewrite (plain_set (chosen w b) value
             (store (valueProp w) (getProperty (valueProp w) w)
                (store (valueProp w) value w)) Hset).
  cbn [settled raised completion_of stuck fst snd nativeElement
       useSelectableValueProp with_writing with_element with_assigned
       with_decision].
  split; [reflexivity|]. split; [reflexivity|].
  split; [|apply strict_eq_same].
  cbn [properties store]. rewrite insert_insert_eq.
  assert (Hprev : properties w !! valueProp w
                  = Some (getProperty (valueProp w) w)).
  { cbn in Hv. apply bool_decide_eq_true in Hv as [x Hx].
    cbn. rewrite Hx. reflexivity. }
  rewrite (insert_id _ _ _ Hprev). reflexivity.
Qed.

(** X12.  On a selectable element whose properties are plain data, a
    write that is not dropped and a notification that follows it make a
    round trip: the write ends with an assignment of the value to some
    property, and a later notification relevant to that property
    forwards that very value to the control. *)
Theorem plain_write_then_notify_round_trip a value event :
  let w := nativeElement a in
  setter w = accept_all ->
  isMultiSelectable w || isSelectable w = true ->
  isConcrete value = true
    \/ is_Some (settle w (useSelectableValueProp a)) ->
  exists p,
    last (assigned (snd (writeValue value a))) = Some (p, value)
    /\ (relevant event (Some p) = true ->
        forwarded (snd (onChangedEvent event (snd (writeValue value a))))
        = forwarded a ++ [value]).
Proof.
  intros w Hset Hsel Hwritten.
  assert (Hnotify : forall p b a1,
    p = chosen (nativeElement a1) b ->
    isWritingValue a1 = false ->
    useSelectableValueProp a1 = Some b ->
    isMultiSelectable (nativeElement a1) || isSelectable (nativeElement a1)
      = true ->
    getProperty p (nativeElement a1) = value ->
    relevant event (Some p) = true ->
    forwarded (snd (onChangedEvent event a1)) = forwarded a1 ++ [value]).
  { intros p b a1 Hp Hw Hd1 Hsel1 Hget Hrel.
    rewrite onChangedEvent_eq, Hw, handleChange_eq, Hd1.
    cbn [snd settle fmap option_fmap option_map]. rewrite <- Hp, Hrel.
    unfold source. rewrite Hsel1. cbn [keyOf forwarded with_forwarded
      with_decision]. rewrite Hget. reflexivity. }
  destruct (settle w (useSelectableValueProp a)) as [b|] eqn:Hs.
  - exists (chosen w b).
    assert (Hp : destination w (useSelectableValueProp a) value
                 = Some (chosen w b, value)).
    { unfold destination. rewrite Hsel, Hs. reflexivity. }
    rewrite (writeValue_direct value a _ _ Hp). fold w.
    rewrite (plain_set (chosen w b) value w Hset).
    cbn [settled raised stuck snd]. rewrite Hs.
    split; [cbn; apply last_snoc|]. intros Hrel.
    rewrite (Hnotify (chosen w b) b); cbn;
      first [reflexivity | exact Hrel | idtac].
    + symmetry. apply chosen_store. apply chosen_is_candidate_widget.
    + apply store_candidate_still_selectable;
        [apply chosen_is_candidate_widget|exact Hsel].
    + apply get_store_same.
  - destruct Hwritten as [Hc|[b Hb]]; [|discriminate Hb].
    pose proof (writeValue_probing value a Hsel Hs Hc) as Hw.
    cbv zeta in Hw. fold w in Hw.
    rewrite (plain_set (valueProp w) value w Hset) in Hw.
    cbn [settled] in Hw. rewrite get_store_same in Hw.
    set (b := strict_eq value value) in *.
    rewrite (plain_set (valueProp w) _ (store (valueProp w) value w) Hset)
      in Hw.
    cbn [settled raised] in Hw.
    rewrite (plain_set (chosen w b) value
               (store (valueProp w) (getProperty (valueProp w) w)
                  (store (valueProp w) value w)) Hset) in Hw.
    cbn [settled raised completion_of stuck] in Hw.
    rewrite Hw. cbn [snd].
    exists (chosen w b). split; [cbn; apply last_snoc|]. intros Hrel.
    set (w1 := store (valueProp w) value w).
    set (w2 := store (valueProp w) (getProperty (valueProp w) w) w1).
    assert (H1 : isMultiSelectable w1 = isMultiSelectable w)
      by (apply store_candidate_same_class; left; reflexivity).
    assert (H2 : isMultiSelectable w2 = isMultiSelectable w).
    { unfold w2. rewrite store_candidate_same_class; [exact H1|].
      left. unfold valueProp. rewrite H1. reflexivity. }
    assert (Hc2 : chosen w b = valueProp w2 \/ chosen w b = indexProp w2).
    { destruct b; [left|right]; unfold chosen, valueProp, indexProp;
        rewrite H2; reflexivity. }
    assert (S1 : isMultiSelectable w1 || isSelectable w1 = true)
      by (apply store_candidate_still_selectable;
          [left; reflexivity|exact Hsel]).
    assert (S2 : isMultiSelectable w2 || isSelectable w2 = true).
    { apply store_candidate_still_selectable; [|exact S1].
      left. unfold valueProp. rewrite H1. reflexivity. }
    rewrite (Hnotify (chosen w b) b); cbn;
      first [reflexivity | exact Hrel | idtac].
    + rewrite (chosen_store _ value w2 b Hc2).
      unfold chosen, valueProp, indexProp. rewrite H2. reflexivity.
    + apply store_candidate_still_selectable; assumption.
    + rewrite lookup_insert_eq. reflexivity.
Qed.

End PlainElements.

(* ===================================================================== *)
(** * The further properties on the sample elements                       *)
(* ===================================================================== *)

Module ValueAccessorMoreCases.
Import Js ValueAccessor ValueAccessorSpec Elements.
Import ValueAccessorMore PlainElements.

#[local] Open Scope list_scope.

(** After the write that throws on [frozen_item_box], the guard is up
    and two notifications in a row are dropped. *)
Lemma writeValue_guard_follows_completion_witness :
  isWritingValue (snd (writeValue (VStr "x") (create frozen_item_box)))
    = true
  /\ forwarded
       (lifetime
          [Notify frozen_item_box
             {| type := "selected-changed"; detail := VUndefined |};
           Notify frozen_item_box
             {| type := "value-changed"; detail := VUndefined |}]
          (snd (writeValue (VStr "x") (create frozen_item_box))))
     = [].
Proof.
  destruct (writeValue_guard_follows_completion
              (create frozen_item_box) (VStr "x")) as [Hguard Hdrop].
  split; [rewrite Hguard; vm_compute; reflexivity|].
  apply (Hdrop ltac:(vm_compute; reflexivity)
           [(frozen_item_box,
             {| type := "selected-changed"; detail := VUndefined |});
            (frozen_item_box,
             {| type := "value-changed"; detail := VUndefined |})]).
Defined.

Lemma writeValue_assigns_candidates_only_witness :
  exists added,
    assigned (snd (writeValue (VStr "x") (create list_box))) = [] ++ added
    /\ length added <= 3
    /\ Forall (fun pv => fst pv = "selectedItem" \/ fst pv = "selected")
              added.
Proof.
  destruct (writeValue_assigns_candidates_only (create list_box) (VStr "x"))
    as (added & Heq & Hlen & Hall); [vm_compute; reflexivity|].
  exists added. split; [exact Heq|]. split; [exact Hlen|exact Hall].
Defined.

Lemma writeValue_checkbox_coerces_witness :
  assigned (snd (writeValue (VStr "yes") (create check_box)))
    = [("checked", VBool true)]
  /\ assigned (snd (writeValue VNull (create check_box)))
     = [("checked", VBool false)].
Proof.
  split.
  - apply (writeValue_checkbox_coerces (create check_box) (VStr "yes"));
      vm_compute; reflexivity.
  - apply (writeValue_checkbox_coerces (create check_box) VNull);
      vm_compute; reflexivity.
Defined.

Lemma selection_events_dropped_while_undecided_witness :
  onChangedEvent
    {| type := "selected-item-changed"; detail := VObj 8 |}
    (create list_box)
  = (Normal tt, create list_box).
Proof.
  apply (selection_events_dropped_while_undecided (create list_box)
           {| type := "selected-item-changed"; detail := VObj 8 |});
    vm_compute; reflexivity.
Defined.

Lemma other_events_forward_undefined_key_while_undecided_witness :
  forwarded
    (snd (onChangedEvent
            {| type := "value-changed"; detail := VObj 8 |}
            (create list_box)))
  = [VUndefined].
Proof.
  rewrite (other_events_forward_undefined_key_while_undecided
             (create list_box)
             {| type := "value-changed"; detail := VObj 8 |});
    vm_compute; reflexivity.
Defined.

Lemma selectedItems_needs_a_probe_witness :
  forwarded
    (snd (onChangedEvent
            {| type := "selected-items-changed"; detail := VUndefined |}
            (create multi_list_box)))
  = [].
Proof.
  destruct (selectedItems_needs_a_probe (create multi_list_box)
              {| type := "selected-items-changed"; detail := VUndefined |})
    as [_ Hdrop]; [reflexivity|].
  apply Hdrop; vm_compute; reflexivity.
Defined.

Lemma plain_probe_leaves_no_trace_witness :
  fst (writeValue (VStr "x") (create list_box)) = Normal tt
  /\ useSelectableValueProp (snd (writeValue (VStr "x") (create list_box)))
     = Some true
  /\ properties (nativeElement (snd (writeValue (VStr "x") (create list_box))))
     = <["selectedItem" := VStr "x"]> (properties list_box).
Proof.
  destruct (plain_probe_leaves_no_trace (create list_box) (VStr "x"))
    as (Hc & Hd & Hp & _); [vm_compute; reflexivity ..|].
  split; [exact Hc|]. split; [exact Hd|exact Hp].
Defined.

Lemma plain_write_then_notify_round_trip_witness :
  forwarded
    (snd (onChangedEvent
            {| type := "selected-item-changed"; detail := VUndefined |}
            (snd (writeValue (VStr "x") (create list_box)))))
  = [VStr "x"].
Proof.
  destruct (plain_write_then_notify_round_trip (create list_box) (VStr "x")
              {| type := "selected-item-changed"; detail := VUndefined |})
    as (p & Hlast & Hforward);
    [vm_compute; reflexivity | vm_compute; reflexivity
     | left; reflexivity |].
  vm_compute in Hlast. injection Hlast as <-.
  apply Hforward. vm_compute. reflexivity.
Defined.

End ValueAccessorMoreCases.
